(** * List loading, deletion, form validation and star rendering of the
      escape-room diary / party front-end

    The pages of the application are React components: a component owns a
    few state cells ([useState]) and a set of event handlers.  A handler
    is a closure created by one render, so what it READS ([page],
    [loading], [hasMore], ...) is the state captured by that render (the
    snapshot, [snap] below), while what it WRITES ([setPage], ...) is
    applied to the state current at that time.  An [async] handler runs up to
    its [await] when it is called and resumes when the request settles.

    Each component is a module: its state record, a world (state, log of
    the requests sent, pending timers or dialogs) and its handlers as
    computations of a state-and-exception monad. *)

From Stdlib Require Import List ZArith QArith Qround String Ascii Bool Lia Lqa.
Import ListNotations.

Local Open Scope string_scope.
Local Open Scope list_scope.
Local Open Scope Z_scope.

(* ------------------------------------------------------------------ *)
(** ** The JavaScript fragment the handlers use *)

Module JS.

(** What a [catch] clause can receive: a [TypeError] of the runtime, the
    rejection of an axios call (its message and, when the server answered,
    the [message] field of the response body, if it has one), or an [Error]
    thrown by the handler itself. *)
Inductive error : Type :=
| TypeError
| AxiosError (message : string) (response : option (option string))
| Error (message : string).

Inductive completion (A : Type) : Type :=
| Normal (a : A)
| Throw (e : error).
Arguments Normal {A} a.
Arguments Throw {A} e.

(** A number: a finite value (every double is a rational), [NaN] or an
    infinity. *)
Inductive number : Type :=
| NaN
| Fin (q : Q)
| PosInf
| NegInf.

(** [a < b] on numbers; any comparison with [NaN] is false. *)
Definition lt (a b : number) : bool :=
  match a, b with
  | NaN, _ | _, NaN => false
  | Fin x, Fin y => negb (Qle_bool y x)
  | Fin _, PosInf => true
  | NegInf, Fin _ => true
  | NegInf, PosInf => true
  | _, _ => false
  end.

(** [a <= b] on numbers. *)
Definition le (a b : number) : bool :=
  match a, b with
  | NaN, _ | _, NaN => false
  | Fin x, Fin y => Qle_bool x y
  | PosInf, PosInf | NegInf, NegInf => true
  | Fin _, PosInf => true
  | NegInf, Fin _ => true
  | NegInf, PosInf => true
  | _, _ => false
  end.

(** [!n]: zero and [NaN] are falsy. *)
Definition number_truthy (n : number) : bool :=
  match n with
  | NaN => false
  | Fin q => negb (Qeq_bool q 0)
  | PosInf | NegInf => true
  end.

(** [Math.round]: the closest integer, a tie going towards plus
    infinity, which on the exact value is [floor (x + 1/2)]. *)
Definition Math_round (n : number) : number :=
  match n with
  | Fin q => Fin (inject_Z (Qfloor (q + (1 # 2))))
  | other => other
  end.

(** A value of a response body.  The loaders test the envelope
    dynamically (truthiness, [Array.isArray], [in]); the elements of an
    array are the records of the declared item type [I], which the code
    never tests. *)
#[warnings="-register-all"]
Inductive value (I : Type) : Type :=
| VUndefined
| VNull
| VBool (b : bool)
| VNum (q : Q)
| VStr (s : string)
| VArr (items : list I)
| VObj (fields : list (string * value I)).
Arguments VUndefined {I}.
Arguments VNull {I}.
Arguments VBool {I} b.
Arguments VNum {I} q.
Arguments VStr {I} s.
Arguments VArr {I} items.
Arguments VObj {I} fields.

Section Values.
Context {I : Type}.

Definition truthy (v : value I) : bool :=
  match v with
  | VUndefined | VNull => false
  | VBool b => b
  | VNum q => negb (Qeq_bool q 0)
  | VStr s => negb (String.eqb s "")
  | VArr _ | VObj _ => true
  end.

(** [a || b] *)
Definition or_else (a b : value I) : value I :=
  if truthy a then a else b.

Definition isArray (v : value I) : bool :=
  match v with
  | VArr _ => true
  | _ => false
  end.

(** The own property [k] of an object literal; the first binding of a
    key is its value. *)
Fixpoint own (k : string) (fs : list (string * value I)) : option (value I) :=
  match fs with
  | [] => None
  | (k', v) :: fs' => if String.eqb k k' then Some v else own k fs'
  end.

(** [v.k] for the property names the handlers read ([data], [content],
    [last], [length], [id]): reading a property of [undefined] or [null]
    throws, a missing property is [undefined]. *)
Definition get (v : value I) (k : string) : completion (value I) :=
  match v with
  | VUndefined | VNull => Throw TypeError
  | VObj fs =>
      Normal (match own k fs with Some x => x | None => VUndefined end)
  | VArr l =>
      Normal (if String.eqb k "length"
              then VNum (inject_Z (Z.of_nat (List.length l)))
              else VUndefined)
  | VStr s =>
      Normal (if String.eqb k "length"
              then VNum (inject_Z (Z.of_nat (String.length s)))
              else VUndefined)
  | VBool _ | VNum _ => Normal VUndefined
  end.

(** [k in v] for [k] one of [content], [last]: a [TypeError] unless [v]
    is an object (an array has neither). *)
Definition has (k : string) (v : value I) : completion bool :=
  match v with
  | VObj fs => Normal (match own k fs with Some _ => true | None => false end)
  | VArr _ => Normal false
  | _ => Throw TypeError
  end.

(** [v.length === 0] *)
Definition length_is_zero (v : value I) : bool :=
  match get v "length" with
  | Normal (VNum q) => Qeq_bool q 0
  | _ => false
  end.

(** [v.map(f)]: only an array of a response body has a callable
    [map]. *)
Definition array_map {A : Type} (v : value I) (f : I -> A)
  : completion (list A) :=
  match v with
  | VArr l => Normal (List.map f l)
  | _ => Throw TypeError
  end.

(** The array behind a value that passed [Array.isArray]. *)
Definition elements (v : value I) : list I :=
  match v with
  | VArr l => l
  | _ => []
  end.

(** The items of a [data] field in one of the two shapes of a list
response: a bare array, or a page object whose [content] is an array. *)
Definition listed (data : value I) : option (list I) :=
  match data with
  | VArr l => Some l
  | VObj dfs =>
      match own "content" dfs with
      | Some (VArr l) => Some l
      | _ => None
      end
  | _ => None
  end.
End Values.

(** How an awaited request settles: it resolves with the response body,
    or it rejects (transport failure, or a status outside 2xx). *)
Inductive outcome (I : Type) : Type :=
| Resolved (body : value I)
| Rejected (e : error).
Arguments Resolved {I} body.
Arguments Rejected {I} e.

(** *** State and exceptions *)
Section Monad.
Context {W : Type}.

Definition M (A : Type) : Type := W -> W * completion A.

Definition ret {A} (a : A) : M A := fun w => (w, Normal a).

Definition bind {A B} (c : M A) (k : A -> M B) : M B :=
  fun w =>
    match c w with
    | (w', Normal a) => k a w'
    | (w', Throw e) => (w', Throw e)
    end.

Definition throw {A} (e : error) : M A := fun w => (w, Throw e).

Definition lift {A} (c : completion A) : M A := fun w => (w, c).

(** A state setter, or any other effect on the world. *)
Definition modify (f : W -> W) : M unit := fun w => (f w, Normal tt).

(** [try { c } catch (e) { h e }] *)
Definition try_catch {A} (c : M A) (h : error -> M A) : M A :=
  fun w =>
    match c w with
    | (w', Throw e) => h e w'
    | r => r
    end.

(** [... finally { f }] *)
Definition finally {A} (c : M A) (f : M unit) : M A :=
  fun w =>
    match c w with
    | (w', r) =>
        match f w' with
        | (w'', Normal _) => (w'', r)
        | (w'', Throw e) => (w'', Throw e)
        end
    end.
End Monad.
Arguments M W A : clear implicits.

End JS.

Declare Scope js_scope.
Delimit Scope js_scope with js.
Notation "x <- c ;; k" := (JS.bind c (fun x => k))
  (at level 61, c at next level, right associativity) : js_scope.
Notation "c ;;; k" := (JS.bind c (fun _ => k))
  (at level 61, right associativity) : js_scope.

Local Open Scope js_scope.

(* ------------------------------------------------------------------ *)
(** ** The diary list with incremental loading ([DiaryPage], keyword
       search, filters and a scroll sentinel) *)

Module DiaryList.
Import JS.

Record DiaryApiResponse : Type := {
  api_id : Z;
  api_title : string;
  playDate : string;
  isSuccess : bool;
  themeName : string;
  storeName : string;
  api_participants : option (list string);
  api_content : option string
}.

Record Diary : Type := {
  id : Z;
  title : string;
  date : string;
  success : bool;
  theme : string;
  location : string;
  participants : list string;
  content : string
}.

Record DateRange : Type := { start : string; end_ : string }.

Record FilterValues : Type := {
  filter_success : option bool;
  dateRange : option DateRange
}.

Inductive filterType : Type := keyword_filter | success_filter | date_filter.

Record State : Type := {
  searchKeyword : string;
  isFilterOpen : bool;
  activeFilters : FilterValues;
  page : Z;
  loading : bool;
  hasMore : bool;
  diaries : list Diary
}.

(** The state of the first render. *)
Definition initial : State :=
  {| searchKeyword := ""; isFilterOpen := false;
     activeFilters := {| filter_success := None; dateRange := None |};
     page := 0; loading := false; hasMore := true; diaries := [] |}.

(** The body of the POST to [/api/v1/diaries/list]. *)
Record Request : Type := {
  req_page : Z;
  size : Z;
  keyword : option string;
  req_isSuccess : option bool;
  startDate : option string;
  endDate : option string
}.

(** The world of the component: its state, the requests sent so far (the
    latest last) and the [setTimeout(loadMoreDiaries, 0)] callbacks not yet
    run, each with the render state its closure captured. *)
Record World : Type := {
  st : State;
  sent : list Request;
  timers : list State
}.

Definition on_state (f : State -> State) (w : World) : World :=
  {| st := f (st w); sent := sent w; timers := timers w |}.

Definition setSearchKeyword (k : string) : M World unit :=
  modify (on_state (fun s =>
    {| searchKeyword := k; isFilterOpen := isFilterOpen s;
       activeFilters := activeFilters s; page := page s;
       loading := loading s; hasMore := hasMore s; diaries := diaries s |})).

Definition updateActiveFilters (f : FilterValues -> FilterValues) : M World unit :=
  modify (on_state (fun s =>
    {| searchKeyword := searchKeyword s; isFilterOpen := isFilterOpen s;
       activeFilters := f (activeFilters s); page := page s;
       loading := loading s; hasMore := hasMore s; diaries := diaries s |})).

Definition setActiveFilters (v : FilterValues) : M World unit :=
  updateActiveFilters (fun _ => v).

Definition updatePage (f : Z -> Z) : M World unit :=
  modify (on_state (fun s =>
    {| searchKeyword := searchKeyword s; isFilterOpen := isFilterOpen s;
       activeFilters := activeFilters s; page := f (page s);
       loading := loading s; hasMore := hasMore s; diaries := diaries s |})).

Definition setPage (p : Z) : M World unit := updatePage (fun _ => p).

Definition setLoading (b : bool) : M World unit :=
  modify (on_state (fun s =>
    {| searchKeyword := searchKeyword s; isFilterOpen := isFilterOpen s;
       activeFilters := activeFilters s; page := page s;
       loading := b; hasMore := hasMore s; diaries := diaries s |})).

Definition setHasMore (b : bool) : M World unit :=
  modify (on_state (fun s =>
    {| searchKeyword := searchKeyword s; isFilterOpen := isFilterOpen s;
       activeFilters := activeFilters s; page := page s;
       loading := loading s; hasMore := b; diaries := diaries s |})).

Definition updateDiaries (f : list Diary -> list Diary) : M World unit :=
  modify (on_state (fun s =>
    {| searchKeyword := searchKeyword s; isFilterOpen := isFilterOpen s;
       activeFilters := activeFilters s; page := page s;
       loading := loading s; hasMore := hasMore s; diaries := f (diaries s) |})).

Definition setDiaries (l : list Diary) : M World unit :=
  updateDiaries (fun _ => l).

(** [axios.post(url, requestData)]: the request leaves. *)
Definition post (r : Request) : M World unit :=
  modify (fun w => {| st := st w; sent := sent w ++ [r]; timers := timers w |}).

(** [setTimeout(loadMoreDiaries, 0)] in a handler of the render [snap]. *)
Definition setTimeout_loadMoreDiaries (snap : State) : M World unit :=
  modify (fun w => {| st := st w; sent := sent w; timers := timers w ++ [snap] |}).

Definition convertApiToDiary (apiDiary : DiaryApiResponse) : Diary :=
  {| id := api_id apiDiary;
     title := api_title apiDiary;
     date := playDate apiDiary;
     success := isSuccess apiDiary;
     theme := themeName apiDiary;
     location := storeName apiDiary;
     participants := match api_participants apiDiary with
                     | Some l => l
                     | None => []
                     end;
     content := match api_content apiDiary with
                | Some c => c
                | None => ""
                end |}.

(** [s || undefined] *)
Definition non_empty (s : string) : option string :=
  if String.eqb s "" then None else Some s.

Definition requestData (snap : State) : Request :=
  {| req_page := page snap;
     size := 12;
     keyword := non_empty (searchKeyword snap);
     req_isSuccess := filter_success (activeFilters snap);
     startDate := match dateRange (activeFilters snap) with
                  | Some r => non_empty (start r)
                  | None => None
                  end;
     endDate := match dateRange (activeFilters snap) with
                | Some r => non_empty (end_ r)
                | None => None
                end |}.

(** [loadMoreDiaries] up to its [await]: the guard, [setLoading(true)] and
    the request.  [None] is the early [return]. *)
Definition loadMoreDiaries_begin (snap : State) : M World (option Request) :=
  if loading snap || negb (hasMore snap) then ret None
  else
    setLoading true ;;;
    post (requestData snap) ;;;
    ret (Some (requestData snap)).

(** The body of the [try] after the [await]. *)
Definition on_response (body : value DiaryApiResponse) : M World unit :=
  data <- lift (get body "data") ;;
  if truthy data then
    c <- lift (get data "content") ;;
    let apiDiaries := or_else c (VArr []) in
    if length_is_zero apiDiaries then setHasMore false
    else
      newDiaries <- lift (array_map apiDiaries convertApiToDiary) ;;
      updateDiaries (fun prev => prev ++ newDiaries) ;;;
      updatePage (fun prev => prev + 1) ;;;
      last <- lift (get data "last") ;;
      setHasMore (negb (truthy last))
  else setHasMore false.

(** [loadMoreDiaries] from the moment its request settles. *)
Definition loadMoreDiaries_resume (o : outcome DiaryApiResponse) : M World unit :=
  finally
    (try_catch
       (match o with
        | Resolved body => on_response body
        | Rejected e => throw e
        end)
       (fun _ => setHasMore false))
    (setLoading false).

(** A call of [loadMoreDiaries] whose request, if one leaves, settles as
    [net] says before anything else happens. *)
Definition loadMoreDiaries (snap : State)
    (net : Request -> outcome DiaryApiResponse) : M World unit :=
  r <- loadMoreDiaries_begin snap ;;
  match r with
  | None => ret tt
  | Some req => loadMoreDiaries_resume (net req)
  end.

(** The two effects: the first load of an empty list, and the sentinel. *)
Definition effect_empty_list (snap : State) : M World (option Request) :=
  if (Nat.eqb (List.length (diaries snap)) 0) && hasMore snap
  then loadMoreDiaries_begin snap
  else ret None.

Definition effect_inView (inView : bool) (snap : State) : M World (option Request) :=
  if inView && hasMore snap && negb (loading snap)
  then loadMoreDiaries_begin snap
  else ret None.

Definition handleSearch (snap : State) (k : string) : M World unit :=
  setSearchKeyword k ;;;
  setDiaries [] ;;;
  setPage 0 ;;;
  setHasMore true ;;;
  setTimeout_loadMoreDiaries snap.

Definition handleFilterApply (snap : State) (filters : FilterValues) : M World unit :=
  setActiveFilters filters ;;;
  setDiaries [] ;;;
  setPage 0 ;;;
  setHasMore true ;;;
  setTimeout_loadMoreDiaries snap.

Definition resetAllFilters (snap : State) : M World unit :=
  setSearchKeyword "" ;;;
  setActiveFilters {| filter_success := None; dateRange := None |} ;;;
  setDiaries [] ;;;
  setPage 0 ;;;
  setHasMore true ;;;
  setTimeout_loadMoreDiaries snap.

Definition removeFilter (snap : State) (t : filterType) : M World unit :=
  match t with
  | keyword_filter => setSearchKeyword ""
  | success_filter =>
      updateActiveFilters (fun prev =>
        {| filter_success := None; dateRange := dateRange prev |})
  | date_filter =>
      updateActiveFilters (fun prev =>
        {| filter_success := filter_success prev; dateRange := None |})
  end ;;;
  setDiaries [] ;;;
  setPage 0 ;;;
  setHasMore true ;;;
  setTimeout_loadMoreDiaries snap.

(** The four ways the query changes. *)
Inductive query_change : Type :=
| Search (k : string)
| FilterApply (filters : FilterValues)
| FilterRemove (t : filterType)
| FilterReset.

Definition change_query (snap : State) (c : query_change) : M World unit :=
  match c with
  | Search k => handleSearch snap k
  | FilterApply f => handleFilterApply snap f
  | FilterRemove t => removeFilter snap t
  | FilterReset => resetAllFilters snap
  end.

(** The load state of the specification, read off the two flags. *)
Inductive LoadState : Type := Idle | Loading | Exhausted.

Definition load_state (s : State) : LoadState :=
  if loading s then Loading
  else if hasMore s then Idle else Exhausted.

(** A run of successive loads, each called from the render of the state it
    finds and settled before the next: the responses are consumed one per
    call that sends a request. *)
Fixpoint loads (rs : list (outcome DiaryApiResponse)) (w : World) : World :=
  match rs with
  | [] => w
  | r :: rs' => loads rs' (fst (loadMoreDiaries (st w) (fun _ => r) w))
  end.

(** A successful page: the envelope with a page object. *)
Definition page_body (items : list DiaryApiResponse) (last : bool)
  : value DiaryApiResponse :=
  VObj [("data", VObj [("content", VArr items); ("last", VBool last)])].

(** The world after a page of [items] was appended. *)
Definition appended (items : list DiaryApiResponse) (last : bool) (w : World) : World :=
  {| st := {| searchKeyword := searchKeyword (st w);
              isFilterOpen := isFilterOpen (st w);
              activeFilters := activeFilters (st w);
              page := page (st w) + 1;
              loading := false;
              hasMore := negb last;
              diaries := diaries (st w) ++ List.map convertApiToDiary items |};
     sent := sent w; timers := timers w |}.

(** The world after a load that ended the session. *)
Definition exhausted (w : World) : World :=
  {| st := {| searchKeyword := searchKeyword (st w);
              isFilterOpen := isFilterOpen (st w);
              activeFilters := activeFilters (st w);
              page := page (st w);
              loading := false;
              hasMore := false;
              diaries := diaries (st w) |};
     sent := sent w; timers := timers w |}.

(** The [last] flag as the loader reads it ([data.last], by truthiness). *)
Definition last_flag (dfs : list (string * value DiaryApiResponse)) : bool :=
  match own "last" dfs with
  | Some v => truthy v
  | None => false
  end.

(** The responses with something to append: a body whose [data] is an
    object whose [content] is a non-empty array. *)
Definition nonempty_page (o : outcome DiaryApiResponse)
  : option (list DiaryApiResponse * bool) :=
  match o with
  | Resolved (VObj fs) =>
      match own "data" fs with
      | Some (VObj dfs) =>
          match own "content" dfs with
          | Some (VArr (i :: items)) => Some (i :: items, last_flag dfs)
          | _ => None
          end
      | _ => None
      end
  | _ => None
  end.

(** The world once a call has passed the guard: loading, request sent. *)
Definition started (snap : State) (w : World) : World :=
  {| st := {| searchKeyword := searchKeyword (st w);
              isFilterOpen := isFilterOpen (st w);
              activeFilters := activeFilters (st w);
              page := page (st w);
              loading := true;
              hasMore := hasMore (st w);
              diaries := diaries (st w) |};
     sent := sent w ++ [requestData snap]; timers := timers w |}.

(** The world of the first render. *)
Definition mounted : World := {| st := initial; sent := []; timers := [] |}.

(** The oldest pending [setTimeout] callback runs: [loadMoreDiaries] of the
    render that scheduled it, up to its [await]. *)
Definition run_timer : M World (option Request) :=
  fun w =>
    match timers w with
    | [] => (w, Normal None)
    | snap :: rest =>
        loadMoreDiaries_begin snap
          {| st := st w; sent := sent w; timers := rest |}
    end.

(** The query a change asks for, from the query in force. *)
Definition new_keyword (c : query_change) (s : State) : string :=
  match c with
  | Search k => k
  | FilterApply _ => searchKeyword s
  | FilterRemove keyword_filter => ""
  | FilterRemove _ => searchKeyword s
  | FilterReset => ""
  end.

Definition new_filters (c : query_change) (s : State) : FilterValues :=
  match c with
  | Search _ => activeFilters s
  | FilterApply f => f
  | FilterRemove keyword_filter => activeFilters s
  | FilterRemove success_filter =>
      {| filter_success := None; dateRange := dateRange (activeFilters s) |}
  | FilterRemove date_filter =>
      {| filter_success := filter_success (activeFilters s); dateRange := None |}
  | FilterReset => {| filter_success := None; dateRange := None |}
  end.

End DiaryList.

(* ------------------------------------------------------------------ *)
(** ** The page of the user's own diaries: one fetch, deletion, and the
       star rating of a row *)

Module MyDiary.
Import JS.

Record Diary : Type := {
  id : Z;
  themeId : Z;
  themeName : string;
  storeName : string;
  escapeDate : string;
  escapeResult : bool;
  ratingAvg : number
}.

Record State : Type := {
  diaries : list Diary;
  loading : bool
}.

Definition initial : State := {| diaries := []; loading := true |}.

Inductive Request : Type :=
| PostList
| Delete (id : Z).

(** State, requests sent (the latest last) and [alert] boxes shown. *)
Record World : Type := {
  st : State;
  sent : list Request;
  alerts : list string
}.

Definition on_state (f : State -> State) (w : World) : World :=
  {| st := f (st w); sent := sent w; alerts := alerts w |}.

Definition updateDiaries (f : list Diary -> list Diary) : M World unit :=
  modify (on_state (fun s => {| diaries := f (diaries s); loading := loading s |})).

Definition setDiaries (l : list Diary) : M World unit :=
  updateDiaries (fun _ => l).

Definition setLoading (b : bool) : M World unit :=
  modify (on_state (fun s => {| diaries := diaries s; loading := b |})).

Definition request (r : Request) : M World unit :=
  modify (fun w => {| st := st w; sent := sent w ++ [r]; alerts := alerts w |}).

Definition alert (msg : string) : M World unit :=
  modify (fun w => {| st := st w; sent := sent w; alerts := alerts w ++ [msg] |}).

(** [await]: the body of the response, or the rejection thrown. *)
Definition await {I : Type} (o : outcome I) : M World (value I) :=
  match o with
  | Resolved body => ret body
  | Rejected e => throw e
  end.

(** [fetchDiaries], run once when the page mounts. *)
Definition fetchDiaries (net : outcome Diary) : M World unit :=
  finally
    (try_catch
       (setLoading true ;;;
        request PostList ;;;
        body <- await net ;;
        data <- lift (get body "data") ;;
        diaryData <-
          (if isArray data then ret (elements data)
           else if truthy data then
             c <- lift (get data "content") ;;
             ret (if isArray c then elements c else [])
           else ret []) ;;
        setDiaries diaryData)
       (fun _ => ret tt))
    (setLoading false).

(** [handleDeleteDiary id]; [confirmed] is the answer to the [confirm]
    dialog and [net] how the DELETE settles. *)
Definition handleDeleteDiary (confirmed : bool) (net : outcome Diary) (i : Z)
  : M World unit :=
  if negb confirmed then ret tt
  else
    try_catch
      (request (Delete i) ;;;
       _ <- await net ;;
       updateDiaries (fun prev => filter (fun diary => negb (id diary =? i)) prev) ;;;
       alert "일지가 삭제되었습니다.")
      (fun _ => alert "일지 삭제에 실패했습니다.").

(** One rendered star. *)
Record span : Type := {
  key : nat;
  className : string;
  glyph : string
}.

Definition renderStars (rating : number) : list span :=
  List.map
    (fun index =>
       {| key := index;
          className :=
            "text-lg " ++
            (if lt (Fin (inject_Z (Z.of_nat index))) (Math_round rating)
             then "text-yellow-400" else "text-gray-300");
          glyph := "★" |})
    (seq 0 5).

(** A star is filled when it has the yellow class. *)
Definition filled (s : span) : bool :=
  String.eqb (className s) "text-lg text-yellow-400".

Definition filled_count (stars : list span) : nat :=
  List.length (filter filled stars).

(** [r] is the integer nearest to [q], a tie going up. *)
Definition nearest (q : Q) (r : Z) : Prop :=
  (inject_Z r - (1 # 2) <= q /\ q < inject_Z r + (1 # 2))%Q.

(** [r] clamped to the range from 0 to 5, as a count. *)
Definition clamp5 (r : Z) : nat := Z.to_nat (Z.max 0 (Z.min 5 r)).

(** Removing exactly the items with identifier [i]: every other item stays,
    in its place relative to the others. *)
Inductive removes_exactly (i : Z) : list Diary -> list Diary -> Prop :=
| removes_nil : removes_exactly i [] []
| removes_drop : forall d l l',
    id d = i -> removes_exactly i l l' -> removes_exactly i (d :: l) l'
| removes_keep : forall d l l',
    id d <> i -> removes_exactly i l l' -> removes_exactly i (d :: l) (d :: l').

(** The world of the first render. *)
Definition mounted : World := {| st := initial; sent := []; alerts := [] |}.

(** The items of the [data] field of a response body, when it has one in
    either shape. *)
Definition listed_in (fs : list (string * value Diary)) : option (list Diary) :=
  match own "data" fs with
  | Some data => listed data
  | None => None
  end.

End MyDiary.

(* ------------------------------------------------------------------ *)
(** ** The list of parties: one search request per (re)load *)

Module Parties.
Import JS.

Record PartyMainResponse : Type := {
  themeId : option Z;
  themeName : option string;
  themeThumbnailUrl : option string;
  storeId : option Z;
  storeName : option string;
  api_id : option Z;
  api_title : option string;
  scheduledAt : option string;
  acceptedParticipantCount : option Z;
  totalParticipants : option Z
}.

Record Host : Type := { name : string; host_image : string }.

Record EscapeRoom : Type := {
  id : option string;
  title : string;
  category : string;
  date : string;
  location : string;
  participants : string;
  image : string;
  host : Host
}.

Record State : Type := {
  parties : list EscapeRoom;
  page : Z;
  loading : bool;
  hasMore : bool;
  searchKeyword : string;
  filterRegion : string
}.

Definition initial : State :=
  {| parties := []; page := 1; loading := false; hasMore := true;
     searchKeyword := ""; filterRegion := "" |}.

(** The body of the POST to [/api/v1/parties/search]. *)
Record Request : Type := { keyword : string; region : string }.

Record World : Type := {
  st : State;
  sent : list Request
}.

Definition on_state (f : State -> State) (w : World) : World :=
  {| st := f (st w); sent := sent w |}.

Definition setParties (l : list EscapeRoom) : M World unit :=
  modify (on_state (fun s =>
    {| parties := l; page := page s; loading := loading s;
       hasMore := hasMore s; searchKeyword := searchKeyword s;
       filterRegion := filterRegion s |})).

Definition setPage (p : Z) : M World unit :=
  modify (on_state (fun s =>
    {| parties := parties s; page := p; loading := loading s;
       hasMore := hasMore s; searchKeyword := searchKeyword s;
       filterRegion := filterRegion s |})).

Definition setLoading (b : bool) : M World unit :=
  modify (on_state (fun s =>
    {| parties := parties s; page := page s; loading := b;
       hasMore := hasMore s; searchKeyword := searchKeyword s;
       filterRegion := filterRegion s |})).

Definition setHasMore (b : bool) : M World unit :=
  modify (on_state (fun s =>
    {| parties := parties s; page := page s; loading := loading s;
       hasMore := b; searchKeyword := searchKeyword s;
       filterRegion := filterRegion s |})).

Definition setSearchKeyword (k : string) : M World unit :=
  modify (on_state (fun s =>
    {| parties := parties s; page := page s; loading := loading s;
       hasMore := hasMore s; searchKeyword := k;
       filterRegion := filterRegion s |})).

Definition setFilterRegion (r : string) : M World unit :=
  modify (on_state (fun s =>
    {| parties := parties s; page := page s; loading := loading s;
       hasMore := hasMore s; searchKeyword := searchKeyword s;
       filterRegion := r |})).

Definition post (r : Request) : M World unit :=
  modify (fun w => {| st := st w; sent := sent w ++ [r] |}).

(** [a || b] on an optional string: [undefined] and the empty string are
    falsy. *)
Definition string_or (a : option string) (b : string) : string :=
  match a with
  | Some s => if String.eqb s "" then b else s
  | None => b
  end.

(** [a || 0] on an optional number. *)
Definition number_or_zero (a : option Z) : Z :=
  match a with
  | Some n => n
  | None => 0
  end.

Section Builtins.
(** The decimal text of an integer ([toString], template literals) and the
    text of a date in the Korean locale with the two replacements applied
    to it; both belong to the runtime. *)
Variable Number_toString : Z -> string.
Variable formatScheduledAt : string -> string.

Definition convertToEscapeRoom (partyData : PartyMainResponse) : EscapeRoom :=
  let formattedDate :=
    match scheduledAt partyData with
    | Some s => if String.eqb s "" then "" else formatScheduledAt s
    | None => ""
    end in
  {| id := option_map Number_toString (api_id partyData);
     title := string_or (api_title partyData) "제목 없음";
     category := string_or (themeName partyData) "";
     date := formattedDate;
     location := string_or (storeName partyData) "";
     participants :=
       Number_toString (number_or_zero (acceptedParticipantCount partyData))
       ++ "/" ++
       Number_toString (number_or_zero (totalParticipants partyData))
       ++ "명";
     image := string_or (themeThumbnailUrl partyData) "";
     host := {| name := "모임장"; host_image := "/profile_man.jpg" |} |}.

(** Equality of [Map] keys; here [undefined] or a string. *)
Definition key_eqb (a b : option string) : bool :=
  match a, b with
  | None, None => true
  | Some x, Some y => String.eqb x y
  | _, _ => false
  end.

(** [map.set(k, v)] on a [Map] kept in insertion order: a key already there
    keeps its place and takes the new value. *)
Fixpoint Map_set (k : option string) (v : EscapeRoom)
    (m : list (option string * EscapeRoom)) : list (option string * EscapeRoom) :=
  match m with
  | [] => [(k, v)]
  | (k', v') :: m' =>
      if key_eqb k k' then (k', v) :: m' else (k', v') :: Map_set k v m'
  end.

(** [Array.from(new Map(l.map(item => [item.id, item])).values())] *)
Definition uniqueParties (convertedData : list EscapeRoom) : list EscapeRoom :=
  List.map snd
    (fold_left (fun m item => Map_set (id item) item m) convertedData []).

(** [loadParties] up to its [await]; [None] is the early [return]. *)
Definition loadParties_begin (snap : State) : M World (option Request) :=
  if loading snap then ret None
  else
    let r := {| keyword := searchKeyword snap; region := filterRegion snap |} in
    setLoading true ;;;
    post r ;;;
    ret (Some r).

(** The end of the [try] block, from the empty-data test on. *)
Definition store_parties (partyData : list PartyMainResponse) : M World unit :=
  if Nat.eqb (List.length partyData) 0 then
    setParties [] ;;;
    setHasMore false
  else
    setParties (uniqueParties (List.map convertToEscapeRoom partyData)).

(** The [else] branch for a structure that is neither shape. *)
Definition unexpected : M World unit :=
  setParties [] ;;;
  setHasMore false.

Definition on_response (body : value PartyMainResponse) : M World unit :=
  data <- lift (get body "data") ;;
  if truthy data then
    if isArray data then store_parties (elements data)
    else
      has_content <- lift (has "content" data) ;;
      if has_content then
        c <- lift (get data "content") ;;
        if isArray c then
          has_last <- lift (has "last" data) ;;
          (if has_last then
             last <- lift (get data "last") ;;
             setHasMore (negb (truthy last))
           else ret tt) ;;;
          store_parties (elements c)
        else unexpected
      else unexpected
  else
    setParties [] ;;;
    setHasMore false.

(** [loadParties] from the moment its request settles. *)
Definition loadParties_resume (o : outcome PartyMainResponse) : M World unit :=
  finally
    (try_catch
       (match o with
        | Resolved body => on_response body
        | Rejected e => throw e
        end)
       (fun _ => setParties [] ;;; setHasMore false))
    (setLoading false).

Definition loadParties (snap : State)
    (net : Request -> outcome PartyMainResponse) : M World unit :=
  r <- loadParties_begin snap ;;
  match r with
  | None => ret tt
  | Some req => loadParties_resume (net req)
  end.
End Builtins.

(** The entries of the [Map] built by [uniqueParties]: distinct keys, each
    the identifier of its value. *)
Definition keyed (m : list (option string * EscapeRoom)) : Prop :=
  NoDup (List.map fst m) /\ Forall (fun kv => id (snd kv) = fst kv) m.

(** The stand-in for further pages: the search API has none. *)
Definition loadMoreParties : M World unit := setHasMore false.

Definition effect_inView (inView : bool) (snap : State) : M World unit :=
  if inView && hasMore snap && negb (loading snap) then loadMoreParties
  else ret tt.

Definition handleSearch (snap : State) (k : string) : M World (option Request) :=
  setSearchKeyword k ;;;
  setParties [] ;;;
  setPage 1 ;;;
  loadParties_begin snap.

Definition handleFilterChange (snap : State) (filterType value : string)
  : M World (option Request) :=
  if String.eqb filterType "region" then
    setFilterRegion value ;;;
    setParties [] ;;;
    setPage 1 ;;;
    loadParties_begin snap
  else ret None.

Inductive LoadState : Type := Idle | Loading | Exhausted.

Definition load_state (s : State) : LoadState :=
  if loading s then Loading
  else if hasMore s then Idle else Exhausted.

(** The items of the [data] field of a response body, when it has one in
    either shape. *)
Definition listed_in (fs : list (string * value PartyMainResponse))
  : option (list PartyMainResponse) :=
  match own "data" fs with
  | Some data => listed data
  | None => None
  end.

(** The exhaustion flag after a response with items: a page object that
    has a [last] field decides it, otherwise it stays. *)
Definition hasMore_after (fs : list (string * value PartyMainResponse))
    (before : bool) : bool :=
  match own "data" fs with
  | Some (VObj dfs) =>
      match own "last" dfs with
      | Some v => negb (truthy v)
      | None => before
      end
  | _ => before
  end.

End Parties.

(* ------------------------------------------------------------------ *)
(** ** The form that creates a party *)

Module CreateParty.
Import JS.

Record PartyFormData : Type := {
  title : string;
  themeName : string;
  themeId : number;
  date : string;
  time : string;
  participantsNeeded : string;
  totalParticipants : string;
  rookieAvailable : bool;
  content : string
}.

Record PartyRequest : Type := {
  req_themeId : number;
  req_title : string;
  req_content : string;
  scheduledAt : string;
  req_participantsNeeded : number;
  req_totalParticipants : number;
  req_rookieAvailable : bool
}.

Record State : Type := {
  formData : PartyFormData;
  isThemeSearchModalOpen : bool;
  isTimePickerModalOpen : bool;
  isSubmitting : bool;
  error : option string
}.

(** State, POSTs to [/api/v1/parties] sent and [router.push] calls made. *)
Record World : Type := {
  st : State;
  sent : list PartyRequest;
  pushed : list string
}.

Definition on_state (f : State -> State) (w : World) : World :=
  {| st := f (st w); sent := sent w; pushed := pushed w |}.

Definition setIsSubmitting (b : bool) : M World unit :=
  modify (on_state (fun s =>
    {| formData := formData s;
       isThemeSearchModalOpen := isThemeSearchModalOpen s;
       isTimePickerModalOpen := isTimePickerModalOpen s;
       isSubmitting := b; error := error s |})).

Definition setError (e : option string) : M World unit :=
  modify (on_state (fun s =>
    {| formData := formData s;
       isThemeSearchModalOpen := isThemeSearchModalOpen s;
       isTimePickerModalOpen := isTimePickerModalOpen s;
       isSubmitting := isSubmitting s; error := e |})).

Definition post (r : PartyRequest) : M World unit :=
  modify (fun w => {| st := st w; sent := sent w ++ [r]; pushed := pushed w |}).

Definition router_push (path : string) : M World unit :=
  modify (fun w => {| st := st w; sent := sent w; pushed := pushed w ++ [path] |}).

Definition await {I : Type} (o : outcome I) : M World (value I) :=
  match o with
  | Resolved body => ret body
  | Rejected e => throw e
  end.

Definition isNaN (n : number) : bool :=
  match n with
  | NaN => true
  | _ => false
  end.

Section Builtins.
(** What the runtime provides: [parseInt(s, 10)], the time value of
    [new Date(s)] ([NaN] for a text that is not a date), [toISOString] of a
    time value, the text of a value inside a template literal, and the
    message of a [TypeError]. *)
Variable parseInt10 : string -> number.
Variable Date_time : string -> number.
Variable toISOString : number -> string.
Variable text_of : value unit -> string.
Variable TypeError_message : string.

(** The checks of the form and the request built from it; [now] is the
    time value of [new Date()] taken by the handler. *)
Definition validate (f : PartyFormData) (now : number) : completion PartyRequest :=
  if negb (number_truthy (themeId f)) || le (themeId f) (Fin 0) then
    Throw (Error "테마를 선택해주세요.")
  else
    let needed := parseInt10 (participantsNeeded f) in
    let total := parseInt10 (totalParticipants f) in
    if lt total needed then
      Throw (Error "필요한 인원은 총 인원보다 작거나 같아야 합니다.")
    else
      let scheduledDateTime := Date_time (date f ++ "T" ++ time f) in
      if isNaN scheduledDateTime then
        Throw (Error "날짜와 시간을 올바르게 입력해주세요.")
      else if le scheduledDateTime now then
        Throw (Error "모임 날짜와 시간은 현재 또는 미래의 시간이어야 합니다.")
      else
        Normal {| req_themeId := themeId f;
                  req_title := title f;
                  req_content := content f;
                  scheduledAt := toISOString scheduledDateTime;
                  req_participantsNeeded := needed;
                  req_totalParticipants := total;
                  req_rookieAvailable := rookieAvailable f |}.

(** The four rejections of the form, as the specification words them: the
    theme identifier is not strictly positive, more participants are needed
    than the party has, the date and time do not parse, or the scheduled
    time is not strictly after [now]. *)
Definition invalid (f : PartyFormData) (now : Q) : Prop :=
  lt (Fin 0) (themeId f) = false \/
  lt (parseInt10 (totalParticipants f)) (parseInt10 (participantsNeeded f)) = true \/
  isNaN (Date_time (date f ++ "T" ++ time f)) = true \/
  lt (Fin now) (Date_time (date f ++ "T" ++ time f)) = false.

(** The request of a form that passes. *)
Definition request_of (f : PartyFormData) : PartyRequest :=
  {| req_themeId := themeId f;
     req_title := title f;
     req_content := content f;
     scheduledAt := toISOString (Date_time (date f ++ "T" ++ time f));
     req_participantsNeeded := parseInt10 (participantsNeeded f);
     req_totalParticipants := parseInt10 (totalParticipants f);
     req_rookieAvailable := rookieAvailable f |}.

(** The messages of the four rejections. *)
Definition validation_messages : list string :=
  ["테마를 선택해주세요.";
   "필요한 인원은 총 인원보다 작거나 같아야 합니다.";
   "날짜와 시간을 올바르게 입력해주세요.";
   "모임 날짜와 시간은 현재 또는 미래의 시간이어야 합니다."].

(** The [catch] clause. *)
Definition on_error (err : JS.error) : M World unit :=
  match err with
  | AxiosError _ (Some m) =>
      setError (Some (match m with
                      | Some s => if String.eqb s "" then "모임 등록에 실패했습니다." else s
                      | None => "모임 등록에 실패했습니다."
                      end))
  | AxiosError m None => setError (Some m)
  | Error m => setError (Some m)
  | TypeError => setError (Some TypeError_message)
  end.

(** [handleSubmit] of the render [snap]; [net] is how the POST settles. *)
Definition handleSubmit (snap : State) (now : number) (net : outcome unit)
  : M World unit :=
  setIsSubmitting true ;;;
  setError None ;;;
  finally
    (try_catch
       (requestData <- lift (validate (formData snap) now) ;;
        post requestData ;;;
        body <- await net ;;
        data <- lift (get body "data") ;;
        new_id <- (match data with
                   | VUndefined | VNull => ret VUndefined
                   | _ => lift (get data "id")
                   end) ;;
        if truthy new_id then router_push ("/parties/" ++ text_of new_id)
        else router_push "/parties")
       on_error)
    (setIsSubmitting false).
End Builtins.

(** [setFormData(prev => ...)] *)
Definition updateFormData (f : PartyFormData -> PartyFormData) : M World unit :=
  modify (on_state (fun s =>
    {| formData := f (formData s);
       isThemeSearchModalOpen := isThemeSearchModalOpen s;
       isTimePickerModalOpen := isTimePickerModalOpen s;
       isSubmitting := isSubmitting s; error := error s |})).



Definition handleTimeSelect (t : string) : M World unit :=
  updateFormData (fun prev =>
    {| title := title prev; themeName := themeName prev; themeId := themeId prev;
       date := date prev; time := t;
       participantsNeeded := participantsNeeded prev;
       totalParticipants := totalParticipants prev;
       rookieAvailable := rookieAvailable prev;
       content := content prev |}).

End CreateParty.

(* ------------------------------------------------------------------ *)
(** ** The filter dialog of the theme search *)

Module ThemeFilterModal.
Import JS.

(** What [onApply] receives. *)
Record Filters : Type := {
  regions : list string;
  genres : list string;
  participant : string
}.

Record State : Type := {
  selectedRegions : list string;
  selectedGenres : list string;
  selectedParticipant : string;
  activeRegion : string
}.

Definition initial : State :=
  {| selectedRegions := []; selectedGenres := []; selectedParticipant := "";
     activeRegion := "서울" |}.

(** State, the filters handed to [onApply] (the latest last) and the number
    of [onClose] calls. *)
Record World : Type := {
  st : State;
  applied : list Filters;
  closed : nat
}.

Definition on_state (f : State -> State) (w : World) : World :=
  {| st := f (st w); applied := applied w; closed := closed w |}.

(** [prev.includes(x)] *)
Definition includes (x : string) (prev : list string) : bool :=
  existsb (String.eqb x) prev.

(** The updater of both toggles: out if it is in, otherwise in at the
    end. *)
Definition toggle (x : string) (prev : list string) : list string :=
  if includes x prev
  then filter (fun r => negb (String.eqb r x)) prev
  else prev ++ [x].

Definition handleRegionToggle (region : string) : M World unit :=
  modify (on_state (fun s =>
    {| selectedRegions := toggle region (selectedRegions s);
       selectedGenres := selectedGenres s;
       selectedParticipant := selectedParticipant s;
       activeRegion := activeRegion s |})).

Definition handleGenreToggle (genre : string) : M World unit :=
  modify (on_state (fun s =>
    {| selectedRegions := selectedRegions s;
       selectedGenres := toggle genre (selectedGenres s);
       selectedParticipant := selectedParticipant s;
       activeRegion := activeRegion s |})).

Definition handleParticipantToggle (snap : State) (p : string) : M World unit :=
  modify (on_state (fun s =>
    {| selectedRegions := selectedRegions s;
       selectedGenres := selectedGenres s;
       selectedParticipant :=
         if String.eqb (selectedParticipant snap) p then "" else p;
       activeRegion := activeRegion s |})).

Definition handleRegionClick (regionId : string) : M World unit :=
  modify (on_state (fun s =>
    {| selectedRegions := selectedRegions s;
       selectedGenres := selectedGenres s;
       selectedParticipant := selectedParticipant s;
       activeRegion := regionId |})).

Definition handleReset : M World unit :=
  modify (on_state (fun _ => initial)).

Definition handleApply (snap : State) : M World unit :=
  modify (fun w =>
    {| st := st w;
       applied := applied w ++
         [{| regions := selectedRegions snap; genres := selectedGenres snap;
             participant := selectedParticipant snap |}];
       closed := S (closed w) |}).

(** The summary shown at the top of the dialog; [String.concat] is
    [join]. *)
Definition getSelectedFiltersText (snap : State) : string :=
  let regionText :=
    if Nat.ltb 0 (List.length (selectedRegions snap))
    then ("지역: " ++ String.concat ", " (selectedRegions snap))%string else "" in
  let genreText :=
    if Nat.ltb 0 (List.length (selectedGenres snap))
    then ("장르: " ++ String.concat ", " (selectedGenres snap))%string else "" in
  let participantText :=
    if negb (String.eqb (selectedParticipant snap) "")
    then ("인원: " ++ selectedParticipant snap)%string else "" in
  let texts :=
    filter (fun t => negb (String.eqb t ""))
      [regionText; genreText; participantText] in
  String.concat " | " texts.

(** A run of clicks on region checkboxes. *)
Definition toggles (xs : list string) (prev : list string) : list string :=
  fold_left (fun l x => toggle x l) xs prev.

End ThemeFilterModal.

(* ------------------------------------------------------------------ *)
(** ** Sessions: calls of a loader interleaved with the settling of its
       requests *)

Module Session.
Section Loader.
Context {W Req Out : Type}.
(** A call of the loader from the render of the current state, up to its
    [await], and its continuation. *)
Variable begin : W -> W * option Req.
Variable resume : Out -> W -> W.

Record t : Type := {
  world : W;
  in_flight : list Req
}.

Inductive event : Type :=
| Call
| Settle (o : Out).

Definition step (s : t) (e : event) : t :=
  match e with
  | Call =>
      match begin (world s) with
      | (w', Some r) => {| world := w'; in_flight := in_flight s ++ [r] |}
      | (w', None) => {| world := w'; in_flight := in_flight s |}
      end
  | Settle o =>
      match in_flight s with
      | [] => s
      | _ :: rest => {| world := resume o (world s); in_flight := rest |}
      end
  end.

Definition run (es : list event) (s : t) : t := fold_left step es s.

(** At most one request awaits its response, and while one does the loader
    is busy. *)
Variable busy : W -> bool.

Definition single_flight (s : t) : Prop :=
  (List.length (in_flight s) <= 1)%nat /\
  (in_flight s <> [] -> busy (world s) = true).
End Loader.
Arguments t : clear implicits.
End Session.

(** The two loaders as session loaders. *)
Definition diary_begin (w : DiaryList.World) : DiaryList.World * option DiaryList.Request :=
  match DiaryList.loadMoreDiaries_begin (DiaryList.st w) w with
  | (w', JS.Normal r) => (w', r)
  | (w', JS.Throw _) => (w', None)
  end.

Definition diary_resume (o : JS.outcome DiaryList.DiaryApiResponse)
    (w : DiaryList.World) : DiaryList.World :=
  fst (DiaryList.loadMoreDiaries_resume o w).

Definition diary_busy (w : DiaryList.World) : bool :=
  DiaryList.loading (DiaryList.st w).

Definition parties_busy (w : Parties.World) : bool :=
  Parties.loading (Parties.st w).

Definition parties_resume (Number_toString : Z -> string)
    (formatScheduledAt : string -> string)
    (o : JS.outcome Parties.PartyMainResponse) (w : Parties.World) : Parties.World :=
  fst (Parties.loadParties_resume Number_toString formatScheduledAt o w).

(** A diary of the API with identifier [n]. *)
Definition sample (n : Z) : DiaryList.DiaryApiResponse :=
  {| DiaryList.api_id := n; DiaryList.api_title := "t";
     DiaryList.playDate := "2025-04-01"; DiaryList.isSuccess := true;
     DiaryList.themeName := "theme"; DiaryList.storeName := "store";
     DiaryList.api_participants := None; DiaryList.api_content := None |}.

(** A diary of the user with identifier [n], and a page showing three. *)
Definition my_sample (n : Z) : MyDiary.Diary :=
  {| MyDiary.id := n; MyDiary.themeId := 10; MyDiary.themeName := "theme";
     MyDiary.storeName := "store"; MyDiary.escapeDate := "2025-04-01";
     MyDiary.escapeResult := true; MyDiary.ratingAvg := JS.Fin (7 # 2) |}.

Definition three_diaries : MyDiary.World :=
  {| MyDiary.st :=
       {| MyDiary.diaries := [my_sample 1; my_sample 2; my_sample 3];
          MyDiary.loading := false |};
     MyDiary.sent := [MyDiary.PostList];
     MyDiary.alerts := [] |}.

(** A party form: theme 3, two of four participants needed, at the text
    [date]. *)
Definition party_form (date : string) : CreateParty.State :=
  {| CreateParty.formData :=
       {| CreateParty.title := "Friday room"; CreateParty.themeName := "theme";
          CreateParty.themeId := JS.Fin 3; CreateParty.date := date;
          CreateParty.time := "19:30";
          CreateParty.participantsNeeded := "2";
          CreateParty.totalParticipants := "4";
          CreateParty.rookieAvailable := true; CreateParty.content := "" |};
     CreateParty.isThemeSearchModalOpen := false;
     CreateParty.isTimePickerModalOpen := false;
     CreateParty.isSubmitting := false;
     CreateParty.error := None |}.

(** The same form with the participants needed left blank. *)
Definition blank_participants_form : CreateParty.State :=
  {| CreateParty.formData :=
       {| CreateParty.title := "Friday room"; CreateParty.themeName := "theme";
          CreateParty.themeId := JS.Fin 3; CreateParty.date := "2030-01-01";
          CreateParty.time := "19:30";
          CreateParty.participantsNeeded := "";
          CreateParty.totalParticipants := "4";
          CreateParty.rookieAvailable := true; CreateParty.content := "" |};
     CreateParty.isThemeSearchModalOpen := false;
     CreateParty.isTimePickerModalOpen := false;
     CreateParty.isSubmitting := false;
     CreateParty.error := None |}.

(** The world of a party form. *)
Definition form_world (s : CreateParty.State) : CreateParty.World :=
  {| CreateParty.st := s; CreateParty.sent := []; CreateParty.pushed := [] |}.

(** A runtime for the examples: participants are 2 and 4, and a date
    parses (to the time 1000) when its text differs from [never]. *)
Definition sample_parseInt10 (s : string) : JS.number :=
  if String.eqb s "2" then JS.Fin 2
  else if String.eqb s "4" then JS.Fin 4 else JS.NaN.

Definition sample_Date_time (s : string) : JS.number :=
  if String.eqb s "neverT19:30" then JS.NaN else JS.Fin 1000.

(** A converted party with identifier [i] and title [t]. *)
Definition room (i t : string) : Parties.EscapeRoom :=
  {| Parties.id := Some i; Parties.title := t; Parties.category := "";
     Parties.date := ""; Parties.location := ""; Parties.participants := "0/0";
     Parties.image := "";
     Parties.host := {| Parties.name := "host"; Parties.host_image := "" |} |}.

(** A party list showing two parties, idle. *)
Definition two_parties : Parties.World :=
  {| Parties.st :=
       {| Parties.parties := [room "1" "a"; room "2" "b"]; Parties.page := 1;
          Parties.loading := false; Parties.hasMore := true;
          Parties.searchKeyword := "old"; Parties.filterRegion := "" |};
     Parties.sent := [] |}.

(** A party list that was exhausted and is not loading. *)
Definition exhausted_parties : Parties.World :=
  {| Parties.st :=
       {| Parties.parties := []; Parties.page := 1; Parties.loading := false;
          Parties.hasMore := false; Parties.searchKeyword := "room";
          Parties.filterRegion := "" |};
     Parties.sent := [] |}.

Definition parties_begin (w : Parties.World) : Parties.World * option Parties.Request :=
  match Parties.loadParties_begin (Parties.st w) w with
  | (w', JS.Normal r) => (w', r)
  | (w', JS.Throw _) => (w', None)
  end.

(* ================================================================== *)
(** * Properties *)

Import JS.

(** C3. When the request of [loadMoreDiaries] fails (transport or server
    error), the handler ends normally, the list becomes exhausted and not
    loading, and the accumulated diaries, the page cursor and the query are
    what they were: nothing is removed or cleared. *)
Theorem loadMoreDiaries_failure_keeps_items :
  forall (e : error) (w : DiaryList.World),
    let r := DiaryList.loadMoreDiaries_resume (Rejected e) w in
    snd r = Normal tt /\
    DiaryList.load_state (DiaryList.st (fst r)) = DiaryList.Exhausted /\
    DiaryList.hasMore (DiaryList.st (fst r)) = false /\
    DiaryList.loading (DiaryList.st (fst r)) = false /\
    DiaryList.diaries (DiaryList.st (fst r)) = DiaryList.diaries (DiaryList.st w) /\
    DiaryList.page (DiaryList.st (fst r)) = DiaryList.page (DiaryList.st w) /\
    DiaryList.searchKeyword (DiaryList.st (fst r)) = DiaryList.searchKeyword (DiaryList.st w) /\
    DiaryList.activeFilters (DiaryList.st (fst r)) = DiaryList.activeFilters (DiaryList.st w) /\
    DiaryList.sent (fst r) = DiaryList.sent w.
Proof.
  intros e [[k o f p l h d] s t]; cbv; repeat split; reflexivity.
Qed.

(** *** The diary loader, case by case *)

Lemma length_is_zero_cons :
  forall (I : Type) (i : I) (l : list I), length_is_zero (VArr (i :: l)) = false.
Proof. intros; reflexivity. Qed.

(** Whatever the request settles to, the continuation of [loadMoreDiaries]
    ends normally; it appends when the response is a page with a non-empty
    content array, and otherwise only marks the list exhausted. *)
Lemma loadMoreDiaries_resume_cases :
  forall o w,
    DiaryList.loadMoreDiaries_resume o w =
      (match DiaryList.nonempty_page o with
       | Some (items, last) => DiaryList.appended items last w
       | None => DiaryList.exhausted w
       end, Normal tt).
Proof.
  intros o [s sn tm].
  destruct o as [body|e]; [|reflexivity].
  destruct body as [| |b|q|x|l|fs]; try reflexivity.
  unfold DiaryList.loadMoreDiaries_resume, DiaryList.on_response,
    DiaryList.nonempty_page, DiaryList.last_flag.
  cbv [finally try_catch bind lift get].
  destruct (own "data" fs) as [data|]; [|reflexivity].
  destruct data as [| |b|q|x|l|dfs]; try reflexivity.
  - destruct b; reflexivity.
  - cbn [truthy]. destruct (Qeq_bool q 0); reflexivity.
  - cbn [truthy]. destruct (String.eqb x ""); [reflexivity|].
    reflexivity.
  - cbn [truthy].
    destruct (own "content" dfs) as [c|]; [|reflexivity].
    destruct c as [| |b|q|x|l|cfs]; try reflexivity.
    + destruct b; reflexivity.
    + unfold or_else. cbn [truthy]. destruct (Qeq_bool q 0); reflexivity.
    + unfold or_else. cbn [truthy].
      destruct (String.eqb x ""); [reflexivity|]. cbn [negb].
      destruct (length_is_zero (VStr x)); reflexivity.
    + destruct l as [|i items]; [reflexivity|].
      unfold or_else. cbn [truthy]. rewrite length_is_zero_cons.
      cbn. destruct (own "last" dfs); reflexivity.
    + unfold or_else. cbn [truthy].
      destruct (length_is_zero (VObj cfs)); reflexivity.
Qed.

Lemma loadMoreDiaries_begin_idle :
  forall snap w,
    DiaryList.loading snap = false ->
    DiaryList.hasMore snap = true ->
    DiaryList.loadMoreDiaries_begin snap w =
      (DiaryList.started snap w, Normal (Some (DiaryList.requestData snap))).
Proof.
  intros snap [s sn tm] Hl Hh.
  unfold DiaryList.loadMoreDiaries_begin. rewrite Hl, Hh. reflexivity.
Qed.

Lemma loadMoreDiaries_begin_guarded :
  forall snap w,
    DiaryList.loading snap || negb (DiaryList.hasMore snap) = true ->
    DiaryList.loadMoreDiaries_begin snap w = (w, Normal None).
Proof.
  intros snap w H. unfold DiaryList.loadMoreDiaries_begin. rewrite H. reflexivity.
Qed.

Lemma load_state_not_idle :
  forall s,
    DiaryList.load_state s <> DiaryList.Idle <->
    DiaryList.loading s || negb (DiaryList.hasMore s) = true.
Proof.
  intros s. unfold DiaryList.load_state.
  destruct (DiaryList.loading s), (DiaryList.hasMore s); cbn;
    split; intros H; try reflexivity; try discriminate; congruence.
Qed.

(** A call from the render of an idle state, with its request settled. *)
Lemma loadMoreDiaries_idle :
  forall w net,
    DiaryList.loading (DiaryList.st w) = false ->
    DiaryList.hasMore (DiaryList.st w) = true ->
    DiaryList.loadMoreDiaries (DiaryList.st w) net w =
      DiaryList.loadMoreDiaries_resume
        (net (DiaryList.requestData (DiaryList.st w)))
        (DiaryList.started (DiaryList.st w) w).
Proof.
  intros w net Hl Hh. unfold DiaryList.loadMoreDiaries, bind.
  rewrite (loadMoreDiaries_begin_idle _ _ Hl Hh). reflexivity.
Qed.

Lemma loadMoreDiaries_guarded :
  forall snap w net,
    DiaryList.loading snap || negb (DiaryList.hasMore snap) = true ->
    DiaryList.loadMoreDiaries snap net w = (w, Normal tt).
Proof.
  intros snap w net H. unfold DiaryList.loadMoreDiaries, bind.
  rewrite (loadMoreDiaries_begin_guarded _ _ H). reflexivity.
Qed.

Lemma nonempty_page_body :
  forall items last,
    DiaryList.nonempty_page (Resolved (DiaryList.page_body items last)) =
      match items with
      | [] => None
      | _ :: _ => Some (items, last)
      end.
Proof. intros [|i items] last; reflexivity. Qed.

(** One successful page fetched from an idle state. *)
Lemma load_page_idle :
  forall items last w,
    DiaryList.loading (DiaryList.st w) = false ->
    DiaryList.hasMore (DiaryList.st w) = true ->
    fst (DiaryList.loadMoreDiaries (DiaryList.st w)
           (fun _ => Resolved (DiaryList.page_body items last)) w) =
      match items with
      | [] => DiaryList.exhausted (DiaryList.started (DiaryList.st w) w)
      | _ :: _ => DiaryList.appended items last (DiaryList.started (DiaryList.st w) w)
      end.
Proof.
  intros items last w Hl Hh.
  rewrite (loadMoreDiaries_idle _ _ Hl Hh), loadMoreDiaries_resume_cases,
    nonempty_page_body.
  destruct items; reflexivity.
Qed.

(** *** The accumulated list *)

Lemma ids_of_converted :
  forall items,
    List.map DiaryList.id (List.map DiaryList.convertApiToDiary items) =
    List.map DiaryList.api_id items.
Proof.
  induction items as [|i items IH]; cbn; [reflexivity|]. now rewrite IH.
Qed.

Lemma loads_accumulate :
  forall (ps : list (list DiaryList.DiaryApiResponse * bool)) (w : DiaryList.World),
    DiaryList.loading (DiaryList.st w) = false ->
    DiaryList.hasMore (DiaryList.st w) = true ->
    Forall (fun p => fst p <> [] /\ snd p = false) (removelast ps) ->
    DiaryList.diaries (DiaryList.st
      (DiaryList.loads
         (List.map (fun p => Resolved (DiaryList.page_body (fst p) (snd p))) ps) w)) =
    DiaryList.diaries (DiaryList.st w) ++
    List.map DiaryList.convertApiToDiary (List.concat (List.map fst ps)).
Proof.
  induction ps as [|[items last] ps IH]; intros w Hl Hh Hall.
  - cbn. now rewrite app_nil_r.
  - cbn [List.map DiaryList.loads fst snd List.concat].
    rewrite (load_page_idle items last w Hl Hh).
    destruct ps as [|p ps'].
    + cbn. destruct items; cbn; now rewrite ?app_nil_r.
    + change (removelast ((items, last) :: p :: ps'))
        with ((items, last) :: removelast (p :: ps')) in Hall.
      inversion Hall as [|x l [Hne Hlast] Hrest]; subst.
      cbn [fst snd] in Hne, Hlast. subst last.
      destruct items as [|i items]; [congruence|].
      rewrite IH; [|reflexivity|reflexivity|exact Hrest].
      cbn [DiaryList.appended DiaryList.st DiaryList.diaries].
      rewrite map_app, <- app_assoc. reflexivity.
Qed.

(** C1 (amended). Over any run of successful page fetches of one session
    (every page before the final one non-empty and not flagged last, so
    that each fetch takes place), the accumulated list is what was there
    followed by the items of the pages in fetch order, each item kept:
    the loader does not compare identifiers.  Hence the list is free of
    duplicate identifiers exactly when the identifiers already there and
    those of the fetched pages, taken together, are. *)
Theorem accumulated_is_concatenation :
  forall (ps : list (list DiaryList.DiaryApiResponse * bool)) (w : DiaryList.World),
    DiaryList.loading (DiaryList.st w) = false ->
    DiaryList.hasMore (DiaryList.st w) = true ->
    Forall (fun p => fst p <> [] /\ snd p = false) (removelast ps) ->
    let w' :=
      DiaryList.loads
        (List.map (fun p => Resolved (DiaryList.page_body (fst p) (snd p))) ps) w in
    DiaryList.diaries (DiaryList.st w') =
      DiaryList.diaries (DiaryList.st w) ++
      List.map DiaryList.convertApiToDiary (List.concat (List.map fst ps)) /\
    (NoDup (List.map DiaryList.id (DiaryList.diaries (DiaryList.st w'))) <->
     NoDup (List.map DiaryList.id (DiaryList.diaries (DiaryList.st w)) ++
            List.map DiaryList.api_id (List.concat (List.map fst ps)))).
Proof.
  intros ps w Hl Hh Hall w'. subst w'.
  rewrite (loads_accumulate ps w Hl Hh Hall).
  split; [reflexivity|].
  rewrite map_app, ids_of_converted. reflexivity.
Qed.

Lemma accumulated_is_concatenation_witness :
  let ps := [([sample 1; sample 2], false); ([sample 3], true)] in
  let w' :=
    DiaryList.loads
      (List.map (fun p => Resolved (DiaryList.page_body (fst p) (snd p))) ps)
      DiaryList.mounted in
  DiaryList.diaries (DiaryList.st w') =
    DiaryList.diaries (DiaryList.st DiaryList.mounted) ++
    List.map DiaryList.convertApiToDiary (List.concat (List.map fst ps)) /\
  (NoDup (List.map DiaryList.id (DiaryList.diaries (DiaryList.st w'))) <->
   NoDup (List.map DiaryList.id (DiaryList.diaries (DiaryList.st DiaryList.mounted)) ++
          List.map DiaryList.api_id (List.concat (List.map fst ps)))).
Proof.
  apply (accumulated_is_concatenation
           [([sample 1; sample 2], false); ([sample 3], true)]
           DiaryList.mounted).
  - reflexivity.
  - reflexivity.
  - cbn. constructor; [|constructor]. split; [discriminate|reflexivity].
Defined.

(** C1 as stated fails: two successful fetches whose pages both carry the
    diary 1 leave it twice in the accumulated list. *)
Lemma duplicate_identifier_accumulated :
  let w' :=
    DiaryList.loads
      [Resolved (DiaryList.page_body [sample 1] false);
       Resolved (DiaryList.page_body [sample 1; sample 2] true)]
      DiaryList.mounted in
  List.map DiaryList.id (DiaryList.diaries (DiaryList.st w')) = [1; 1; 2] /\
  ~ NoDup (List.map DiaryList.id (DiaryList.diaries (DiaryList.st w'))).
Proof.
  cbv zeta.
  assert (E : List.map DiaryList.id
                (DiaryList.diaries (DiaryList.st
                   (DiaryList.loads
                      [Resolved (DiaryList.page_body [sample 1] false);
                       Resolved (DiaryList.page_body [sample 1; sample 2] true)]
                      DiaryList.mounted))) = [1; 1; 2]) by reflexivity.
  split; [exact E|].
  rewrite E. intros H. inversion H as [|x l Hin Hnd]; subst.
  apply Hin. left. reflexivity.
Qed.

(** *** A successful page *)

(** C4. When the request of [loadMoreDiaries] resolves with a page object
    (a body whose [data] has a [content] array and a boolean [last]): an
    empty page exhausts the list, appends nothing and leaves the page
    cursor; a non-empty page is appended whole, the cursor goes up by
    exactly one, and the list is exhausted exactly when [last] is true.
    From the first render, a page of 12 items not flagged last and then a
    page of 5 items flagged last give 17 diaries, the cursor at 2 and an
    exhausted list, with requests for the pages 0 and 1 and none after. *)
Theorem loadMoreDiaries_page_response :
  forall (fs dfs : list (string * value DiaryList.DiaryApiResponse))
         (items p1 p2 : list DiaryList.DiaryApiResponse) (last : bool)
         (w : DiaryList.World),
    own "data" fs = Some (VObj dfs) ->
    own "content" dfs = Some (VArr items) ->
    own "last" dfs = Some (VBool last) ->
    List.length p1 = 12%nat ->
    List.length p2 = 5%nat ->
    let r := DiaryList.loadMoreDiaries_resume (Resolved (VObj fs)) w in
    let s' := DiaryList.st (fst r) in
    let w2 :=
      DiaryList.loads [Resolved (DiaryList.page_body p1 false);
                       Resolved (DiaryList.page_body p2 true)]
        DiaryList.mounted in
    (snd r = Normal tt /\
     DiaryList.loading s' = false /\
     (items = [] ->
        DiaryList.load_state s' = DiaryList.Exhausted /\
        DiaryList.diaries s' = DiaryList.diaries (DiaryList.st w) /\
        DiaryList.page s' = DiaryList.page (DiaryList.st w)) /\
     (items <> [] ->
        DiaryList.diaries s' =
          DiaryList.diaries (DiaryList.st w) ++
          List.map DiaryList.convertApiToDiary items /\
        DiaryList.page s' = DiaryList.page (DiaryList.st w) + 1 /\
        (DiaryList.load_state s' = DiaryList.Exhausted <-> last = true))) /\
    (List.length (DiaryList.diaries (DiaryList.st w2)) = 17%nat /\
     DiaryList.diaries (DiaryList.st w2) =
       List.map DiaryList.convertApiToDiary (p1 ++ p2) /\
     DiaryList.page (DiaryList.st w2) = 2 /\
     DiaryList.load_state (DiaryList.st w2) = DiaryList.Exhausted /\
     List.map DiaryList.req_page (DiaryList.sent w2) = [0; 1] /\
     forall net,
       DiaryList.loadMoreDiaries (DiaryList.st w2) net w2 = (w2, Normal tt)).
Proof.
  intros fs dfs items p1 p2 last w Hd Hc Hlast H1 H2 r s' w2.
  split.
  - subst s' r. rewrite loadMoreDiaries_resume_cases.
    unfold DiaryList.nonempty_page, DiaryList.last_flag.
    rewrite Hd, Hc, Hlast. cbn [truthy].
    destruct items as [|i items]; cbn [fst snd].
    + repeat split; try reflexivity; congruence.
    + repeat split; try reflexivity; try congruence.
      all: destruct last; cbn; intros; congruence.
  - destruct p1 as [|a p1]; [discriminate|].
    destruct p2 as [|b p2]; [discriminate|].
    assert (E : w2 =
      DiaryList.appended (b :: p2) true
        (DiaryList.started
           (DiaryList.st (DiaryList.appended (a :: p1) false
              (DiaryList.started DiaryList.initial DiaryList.mounted)))
           (DiaryList.appended (a :: p1) false
              (DiaryList.started DiaryList.initial DiaryList.mounted)))).
    { subst w2. cbn [DiaryList.loads].
      rewrite (load_page_idle (a :: p1) false DiaryList.mounted eq_refl eq_refl).
      rewrite (load_page_idle (b :: p2) true) by reflexivity.
      reflexivity. }
    rewrite E. clear E w2 r s'.
    cbn [DiaryList.appended DiaryList.started DiaryList.st DiaryList.diaries
         DiaryList.page DiaryList.sent DiaryList.mounted DiaryList.initial
         DiaryList.hasMore DiaryList.loading negb].
    repeat split.
    + cbn [List.app List.map List.length] in *.
      rewrite length_app. cbn [List.length]. rewrite !length_map. lia.
    + cbn [List.app]. rewrite <- map_app. reflexivity.
Qed.

Lemma loadMoreDiaries_page_response_witness :
  let fs := [("message", VStr "ok");
             ("data", VObj [("content", VArr [sample 7; sample 8]);
                            ("totalPages", VNum (inject_Z 3));
                            ("last", VBool false)])] in
  let r := DiaryList.loadMoreDiaries_resume (Resolved (VObj fs)) DiaryList.mounted in
  DiaryList.diaries (DiaryList.st (fst r)) =
    List.map DiaryList.convertApiToDiary [sample 7; sample 8] /\
  DiaryList.page (DiaryList.st (fst r)) = 1 /\
  DiaryList.load_state (DiaryList.st (fst r)) = DiaryList.Idle.
Proof.
  pose proof
    (loadMoreDiaries_page_response
       [("message", VStr "ok");
        ("data", VObj [("content", VArr [sample 7; sample 8]);
                       ("totalPages", VNum (inject_Z 3));
                       ("last", VBool false)])]
       [("content", VArr [sample 7; sample 8]);
        ("totalPages", VNum (inject_Z 3));
        ("last", VBool false)]
       [sample 7; sample 8]
       (List.map sample [1; 2; 3; 4; 5; 6; 7; 8; 9; 10; 11; 12])
       (List.map sample [13; 14; 15; 16; 17])
       false DiaryList.mounted
       eq_refl eq_refl eq_refl eq_refl eq_refl) as [[_ [_ [_ H]]] _].
  destruct (H ltac:(discriminate)) as [Hd [Hp _]].
  cbv zeta. split; [exact Hd|split; [exact Hp|reflexivity]].
Defined.

(** *** One request at a time *)

Section SingleFlight.
Context {W Req Out : Type}.
Variable begin : W -> W * option Req.
Variable resume : Out -> W -> W.
Variable busy : W -> bool.
Hypothesis begin_busy : forall w, busy w = true -> begin w = (w, None).
Hypothesis begin_sends : forall w w' r, begin w = (w', Some r) -> busy w' = true.

Lemma step_single_flight :
  forall (s : Session.t W Req) (e : Session.event),
    Session.single_flight busy s ->
    Session.single_flight busy (Session.step begin resume s e).
Proof.
  intros [w fl] e [Hlen Hbusy]. cbn [Session.in_flight Session.world] in *.
  destruct e as [|o]; cbn [Session.step Session.in_flight Session.world].
  - destruct fl as [|r fl].
    + destruct (begin w) as [w' [r'|]] eqn:E; split; cbn; intros; try lia;
        try congruence.
      eapply begin_sends; eassumption.
    + rewrite (begin_busy w (Hbusy ltac:(discriminate))).
      split; cbn [Session.in_flight Session.world]; assumption.
  - destruct fl as [|r fl]; [split; assumption|].
    destruct fl as [|r' fl]; [|cbn in Hlen; lia].
    split; cbn; [lia|congruence].
Qed.

Lemma run_single_flight :
  forall (es : list Session.event) (s : Session.t W Req),
    Session.single_flight busy s ->
    Session.single_flight busy (Session.run begin resume es s).
Proof.
  induction es as [|e es IH]; intros s H; [exact H|].
  cbn. apply IH. apply step_single_flight. exact H.
Qed.
End SingleFlight.

Lemma diary_begin_busy :
  forall w, diary_busy w = true -> diary_begin w = (w, None).
Proof.
  intros w H. unfold diary_begin, diary_busy in *.
  rewrite loadMoreDiaries_begin_guarded; [reflexivity|]. now rewrite H.
Qed.

Lemma diary_begin_sends :
  forall w w' r, diary_begin w = (w', Some r) -> diary_busy w' = true.
Proof.
  intros w w' r. unfold diary_begin, DiaryList.loadMoreDiaries_begin.
  destruct (DiaryList.loading (DiaryList.st w) || negb (DiaryList.hasMore (DiaryList.st w)));
    cbn; intros H; inversion H; reflexivity.
Qed.

Lemma parties_begin_busy :
  forall w, parties_busy w = true -> parties_begin w = (w, None).
Proof.
  intros w H. unfold parties_begin, parties_busy, Parties.loadParties_begin in *.
  rewrite H. reflexivity.
Qed.

Lemma parties_begin_sends :
  forall w w' r, parties_begin w = (w', Some r) -> parties_busy w' = true.
Proof.
  intros w w' r. unfold parties_begin, Parties.loadParties_begin.
  destruct (Parties.loading (Parties.st w)); cbn; intros H; inversion H; reflexivity.
Qed.

(** C2 (amended). [loadMoreDiaries] called from a render whose state is
    loading or exhausted returns at once: nothing changes and no request
    leaves.  [loadParties], the (re)load of the party list, is guarded by
    the loading flag alone.  When every call is made from the render of the
    current state, each loader has at most one request awaiting its
    response, whatever the order of calls and responses; in particular two
    calls in a row from an idle state send exactly one request. *)
Theorem loaders_guard_and_single_flight :
  (forall (snap : DiaryList.State) (w : DiaryList.World)
          (net : DiaryList.Request -> outcome DiaryList.DiaryApiResponse),
      DiaryList.load_state snap <> DiaryList.Idle ->
      DiaryList.loadMoreDiaries_begin snap w = (w, Normal None) /\
      DiaryList.loadMoreDiaries snap net w = (w, Normal tt)) /\
  (forall (snap : Parties.State) (w : Parties.World),
      Parties.loading snap = true ->
      Parties.loadParties_begin snap w = (w, Normal None)) /\
  (forall (es : list Session.event) (w : DiaryList.World),
      (List.length
         (Session.in_flight
            (Session.run diary_begin diary_resume es
               {| Session.world := w; Session.in_flight := [] |})) <= 1)%nat) /\
  (forall (ts : Z -> string) (fmt : string -> string)
          (es : list Session.event) (w : Parties.World),
      (List.length
         (Session.in_flight
            (Session.run parties_begin (parties_resume ts fmt) es
               {| Session.world := w; Session.in_flight := [] |})) <= 1)%nat) /\
  (forall (w : DiaryList.World),
      DiaryList.load_state (DiaryList.st w) = DiaryList.Idle ->
      let s2 :=
        Session.run diary_begin diary_resume [Session.Call; Session.Call]
          {| Session.world := w; Session.in_flight := [] |} in
      Session.in_flight s2 = [DiaryList.requestData (DiaryList.st w)] /\
      DiaryList.sent (Session.world s2) =
        DiaryList.sent w ++ [DiaryList.requestData (DiaryList.st w)]) /\
  (forall (ts : Z -> string) (fmt : string -> string) (w : Parties.World),
      Parties.loading (Parties.st w) = false ->
      let s2 :=
        Session.run parties_begin (parties_resume ts fmt)
          [Session.Call; Session.Call]
          {| Session.world := w; Session.in_flight := [] |} in
      Parties.sent (Session.world s2) =
        Parties.sent w ++
        [{| Parties.keyword := Parties.searchKeyword (Parties.st w);
            Parties.region := Parties.filterRegion (Parties.st w) |}]).
Proof.
  repeat apply conj.
  - intros snap w net H. apply load_state_not_idle in H. split.
    + now apply loadMoreDiaries_begin_guarded.
    + now apply loadMoreDiaries_guarded.
  - intros snap w H. unfold Parties.loadParties_begin. rewrite H. reflexivity.
  - intros es w.
    apply (run_single_flight diary_begin diary_resume diary_busy
             diary_begin_busy diary_begin_sends es).
    split; cbn; [lia|congruence].
  - intros ts fmt es w.
    apply (run_single_flight parties_begin (parties_resume ts fmt) parties_busy
             parties_begin_busy parties_begin_sends es).
    split; cbn; [lia|congruence].
  - intros [s sn tm] H. unfold DiaryList.load_state in H. cbn in H.
    destruct s as [k o f p l h d]. cbn in H.
    destruct l; [discriminate|]. destruct h; [|discriminate].
    split; reflexivity.
  - intros ts fmt [s sn] H. destruct s as [ps p l h k r]. cbn in H. subst l.
    reflexivity.
Qed.

Lemma loaders_guard_and_single_flight_witness :
  DiaryList.loadMoreDiaries_begin
    (DiaryList.st (DiaryList.started DiaryList.initial DiaryList.mounted))
    (DiaryList.started DiaryList.initial DiaryList.mounted) =
    (DiaryList.started DiaryList.initial DiaryList.mounted, Normal None) /\
  Parties.sent
    (Session.world
       (Session.run parties_begin (parties_resume (fun _ => "0") (fun s => s))
          [Session.Call; Session.Call]
          {| Session.world := exhausted_parties; Session.in_flight := [] |})) =
    [{| Parties.keyword := "room"; Parties.region := "" |}].
Proof.
  destruct loaders_guard_and_single_flight as [Hd [_ [_ [_ [_ Hp]]]]].
  split.
  - apply (Hd _ _ (fun _ => Rejected TypeError)). cbn. discriminate.
  - apply (Hp (fun _ => "0") (fun s => s) exhausted_parties). reflexivity.
Defined.

(** C2 as stated fails for [loadParties]: called on an exhausted list that
    is not loading, it sends a request. *)
Lemma loadParties_ignores_exhaustion :
  Parties.load_state (Parties.st exhausted_parties) = Parties.Exhausted /\
  Parties.sent
    (fst (Parties.loadParties_begin (Parties.st exhausted_parties) exhausted_parties)) =
    [{| Parties.keyword := "room"; Parties.region := "" |}].
Proof. split; reflexivity. Qed.

(** *** Query changes *)

(** C5. Each change of the query (keyword search, filter apply, removal of
    one filter, reset of all filters) records the new query, sets the page
    cursor to 0, empties the accumulated list and marks the list not
    exhausted, and sends no request itself: the load it asks for is only
    scheduled, so it runs after the reset.  The loading flag is left as it
    is; when it is off, the list is idle, and the load of the empty list
    made from the render of the reset state asks for page 0 of the new
    query. *)
Theorem query_change_resets_session :
  forall (snap : DiaryList.State) (c : DiaryList.query_change) (w : DiaryList.World),
    let r := DiaryList.change_query snap c w in
    let s' := DiaryList.st (fst r) in
    snd r = Normal tt /\
    DiaryList.page s' = 0 /\
    DiaryList.diaries s' = [] /\
    DiaryList.hasMore s' = true /\
    DiaryList.load_state s' <> DiaryList.Exhausted /\
    DiaryList.loading s' = DiaryList.loading (DiaryList.st w) /\
    DiaryList.searchKeyword s' = DiaryList.new_keyword c (DiaryList.st w) /\
    DiaryList.activeFilters s' = DiaryList.new_filters c (DiaryList.st w) /\
    DiaryList.sent (fst r) = DiaryList.sent w /\
    DiaryList.timers (fst r) = DiaryList.timers w ++ [snap] /\
    (DiaryList.loading (DiaryList.st w) = false ->
     DiaryList.load_state s' = DiaryList.Idle /\
     exists q,
       DiaryList.effect_empty_list s' (fst r) =
         (DiaryList.started s' (fst r), Normal (Some q)) /\
       DiaryList.req_page q = 0 /\
       DiaryList.keyword q =
         DiaryList.non_empty (DiaryList.new_keyword c (DiaryList.st w)) /\
       DiaryList.req_isSuccess q =
         DiaryList.filter_success (DiaryList.new_filters c (DiaryList.st w))).
Proof.
  intros snap c [[k o f p l h d] sn tm].
  destruct c as [k'|f'|[| |]|]; cbn;
    (repeat (split; [first [reflexivity | destruct l; discriminate]|]));
    intros ->; (split; [reflexivity|]);
    eexists; (split; [reflexivity|]); repeat split.
Qed.

Lemma query_change_resets_session_witness :
  let w :=
    DiaryList.appended [sample 1; sample 2] false
      (DiaryList.started DiaryList.initial DiaryList.mounted) in
  let r := DiaryList.change_query (DiaryList.st w) (DiaryList.Search "mystery") w in
  DiaryList.page (DiaryList.st (fst r)) = 0 /\
  DiaryList.diaries (DiaryList.st (fst r)) = [] /\
  DiaryList.load_state (DiaryList.st (fst r)) = DiaryList.Idle.
Proof.
  pose proof
    (query_change_resets_session
       (DiaryList.st (DiaryList.appended [sample 1; sample 2] false
                        (DiaryList.started DiaryList.initial DiaryList.mounted)))
       (DiaryList.Search "mystery")
       (DiaryList.appended [sample 1; sample 2] false
          (DiaryList.started DiaryList.initial DiaryList.mounted)))
    as [_ [Hp [Hd [_ [_ [_ [_ [_ [_ [_ Hidle]]]]]]]]]].
  destruct (Hidle eq_refl) as [Hi _].
  cbv zeta. split; [exact Hp|split; [exact Hd|exact Hi]].
Defined.

(** The load scheduled by a query change is the [loadMoreDiaries] of the
    render that scheduled it: run after the reset, it still asks for the
    page and the keyword of that render. *)
Remark scheduled_load_reads_scheduling_render :
  let w :=
    DiaryList.appended [sample 1; sample 2] false
      (DiaryList.started DiaryList.initial DiaryList.mounted) in
  let w1 := fst (DiaryList.handleSearch (DiaryList.st w) "mystery" w) in
  DiaryList.page (DiaryList.st w1) = 0 /\
  DiaryList.searchKeyword (DiaryList.st w1) = "mystery" /\
  exists q,
    snd (DiaryList.run_timer w1) = Normal (Some q) /\
    DiaryList.req_page q = 1 /\ DiaryList.keyword q = None.
Proof.
  cbv zeta. split; [reflexivity|]. split; [reflexivity|].
  eexists. split; [reflexivity|]. split; reflexivity.
Qed.

(** *** The shapes of a list response *)

(** Case analysis on the parts of a response body a loader inspects. *)
Ltac by_shape :=
  repeat first
    [ split; reflexivity
    | reflexivity
    | progress cbn [truthy isArray elements negb]
    | match goal with
      | |- context [if ?b then _ else _] => is_var b; destruct b
      | |- context [Qeq_bool ?q 0] => is_var q; destruct (Qeq_bool q 0)
      | |- context [String.eqb ?x ""] => is_var x; destruct (String.eqb x "")
      | |- context [own ?k ?fs] => is_var fs; destruct (own k fs)
      | |- context [isArray ?c] => is_var c; destruct c
      | |- context [truthy ?c] => is_var c; destruct c
      | |- context [match ?l with [] => _ | _ :: _ => _ end] => is_var l; destruct l
      | |- context [Nat.eqb (List.length ?l) 0] => is_var l; destruct l
      end ].

Lemma fetchDiaries_never_throws :
  forall o w,
    snd (MyDiary.fetchDiaries o w) = Normal tt /\
    MyDiary.loading (MyDiary.st (fst (MyDiary.fetchDiaries o w))) = false.
Proof.
  intros o [[d l] sn al].
  destruct o as [body|e]; [|split; reflexivity].
  destruct body as [| |b|q|x|items|fs]; try (split; reflexivity).
  unfold MyDiary.fetchDiaries, MyDiary.await.
  cbv [finally try_catch bind lift get ret MyDiary.setLoading MyDiary.request
       modify MyDiary.on_state MyDiary.st MyDiary.sent MyDiary.alerts
       MyDiary.diaries MyDiary.loading].
  by_shape.
Qed.

Lemma fetchDiaries_object :
  forall fs w,
    MyDiary.diaries (MyDiary.st (fst (MyDiary.fetchDiaries (Resolved (VObj fs)) w))) =
      match MyDiary.listed_in fs with
      | Some items => items
      | None => []
      end.
Proof.
  intros fs [[d l] sn al].
  unfold MyDiary.fetchDiaries, MyDiary.await, MyDiary.listed_in, listed.
  cbv [finally try_catch bind lift get ret MyDiary.setLoading MyDiary.request
       modify MyDiary.on_state MyDiary.st MyDiary.sent MyDiary.alerts
       MyDiary.diaries MyDiary.loading].
  by_shape.
Qed.

Section PartiesLoader.
Variable ts : Z -> string.
Variable fmt : string -> string.

Lemma loadParties_never_throws :
  forall o w,
    snd (Parties.loadParties_resume ts fmt o w) = Normal tt /\
    Parties.loading (Parties.st (fst (Parties.loadParties_resume ts fmt o w))) = false.
Proof.
  intros o [[ps p l h k r] sn].
  destruct o as [body|e]; [|split; reflexivity].
  destruct body as [| |b|q|x|items|fs]; try (split; reflexivity).
  unfold Parties.loadParties_resume, Parties.on_response, Parties.store_parties,
    Parties.unexpected.
  cbv [finally try_catch bind lift get has].
  by_shape.
Qed.

Lemma loadParties_object :
  forall fs w,
    let w' := fst (Parties.loadParties_resume ts fmt (Resolved (VObj fs)) w) in
    match Parties.listed_in fs with
    | Some (i :: items) =>
        Parties.parties (Parties.st w') =
          Parties.uniqueParties
            (List.map (Parties.convertToEscapeRoom ts fmt) (i :: items)) /\
        Parties.hasMore (Parties.st w') =
          Parties.hasMore_after fs (Parties.hasMore (Parties.st w))
    | _ =>
        Parties.parties (Parties.st w') = [] /\
        Parties.hasMore (Parties.st w') = false
    end.
Proof.
  intros fs [[ps p l h k r] sn].
  unfold Parties.loadParties_resume, Parties.on_response, Parties.store_parties,
    Parties.unexpected, Parties.listed_in, Parties.hasMore_after, listed.
  cbv [finally try_catch bind lift get has].
  by_shape.
Qed.
End PartiesLoader.

(** C6 (amended). Whatever a list request settles to, no loader throws to
    its caller.  [fetchDiaries] (the user's diaries) and [loadParties] read
    the items of a response of either shape, a bare array or a page object
    with a content array; with [data] absent or of another form
    [fetchDiaries] shows an empty list, and [loadParties] shows an empty
    list and is exhausted.  [loadMoreDiaries], whose response type is the
    page object alone, appends the items of a page object with a non-empty
    content array; on anything else (a bare array included, and [data]
    absent or malformed) it marks the list exhausted and leaves the
    accumulated diaries as they were, so empty on the first page. *)
Theorem list_loaders_response_shapes :
  forall (ts : Z -> string) (fmt : string -> string),
    (forall o w, snd (MyDiary.fetchDiaries o w) = Normal tt) /\
    (forall o w, snd (Parties.loadParties_resume ts fmt o w) = Normal tt) /\
    (forall o w, snd (DiaryList.loadMoreDiaries_resume o w) = Normal tt) /\
    (forall fs w,
        MyDiary.diaries
          (MyDiary.st (fst (MyDiary.fetchDiaries (Resolved (VObj fs)) w))) =
        match MyDiary.listed_in fs with
        | Some items => items
        | None => []
        end) /\
    (forall fs w,
        let w' := fst (Parties.loadParties_resume ts fmt (Resolved (VObj fs)) w) in
        match Parties.listed_in fs with
        | Some (i :: items) =>
            Parties.parties (Parties.st w') =
              Parties.uniqueParties
                (List.map (Parties.convertToEscapeRoom ts fmt) (i :: items)) /\
            Parties.hasMore (Parties.st w') =
              Parties.hasMore_after fs (Parties.hasMore (Parties.st w))
        | _ =>
            Parties.parties (Parties.st w') = [] /\
            Parties.hasMore (Parties.st w') = false
        end) /\
    (forall fs dfs items w,
        own "data" fs = Some (VObj dfs) ->
        own "content" dfs = Some (VArr items) ->
        items <> [] ->
        fst (DiaryList.loadMoreDiaries_resume (Resolved (VObj fs)) w) =
          DiaryList.appended items (DiaryList.last_flag dfs) w) /\
    (forall fs items w,
        own "data" fs = Some (VArr items) ->
        fst (DiaryList.loadMoreDiaries_resume (Resolved (VObj fs)) w) =
          DiaryList.exhausted w) /\
    (forall o w,
        DiaryList.nonempty_page o = None ->
        fst (DiaryList.loadMoreDiaries_resume o w) = DiaryList.exhausted w).
Proof.
  intros ts fmt. repeat apply conj.
  - intros o w. apply fetchDiaries_never_throws.
  - intros o w. apply loadParties_never_throws.
  - intros o w. rewrite loadMoreDiaries_resume_cases. reflexivity.
  - apply fetchDiaries_object.
  - apply loadParties_object.
  - intros fs dfs items w Hd Hc Hne.
    rewrite loadMoreDiaries_resume_cases. unfold DiaryList.nonempty_page.
    rewrite Hd, Hc. destruct items; [congruence|reflexivity].
  - intros fs items w Hd.
    rewrite loadMoreDiaries_resume_cases. unfold DiaryList.nonempty_page.
    rewrite Hd. reflexivity.
  - intros o w H. rewrite loadMoreDiaries_resume_cases, H. reflexivity.
Qed.

Lemma list_loaders_response_shapes_witness :
  fst (DiaryList.loadMoreDiaries_resume
         (Resolved (DiaryList.page_body [sample 4] true)) DiaryList.mounted) =
    DiaryList.appended [sample 4] true DiaryList.mounted /\
  fst (DiaryList.loadMoreDiaries_resume
         (Resolved (VObj [("message", VStr "ok")])) DiaryList.mounted) =
    DiaryList.exhausted DiaryList.mounted.
Proof.
  destruct (list_loaders_response_shapes (fun _ => "0") (fun s => s))
    as [_ [_ [_ [_ [_ [Hpage [_ Hother]]]]]]].
  split.
  - apply (Hpage _ [("content", VArr [sample 4]); ("last", VBool true)]).
    + reflexivity.
    + reflexivity.
    + discriminate.
  - apply Hother. reflexivity.
Defined.

(** C6 as stated fails for [loadMoreDiaries]: of a response whose [data] is
    a bare array of two diaries it keeps none and ends the session, while
    the same diaries in a page object are appended. *)
Lemma bare_array_ignored_by_loadMoreDiaries :
  let bare := Resolved (VObj [("data", VArr [sample 1; sample 2])]) in
  let paged := Resolved (DiaryList.page_body [sample 1; sample 2] false) in
  DiaryList.diaries
    (DiaryList.st (fst (DiaryList.loadMoreDiaries_resume bare DiaryList.mounted))) = [] /\
  DiaryList.hasMore
    (DiaryList.st (fst (DiaryList.loadMoreDiaries_resume bare DiaryList.mounted))) = false /\
  DiaryList.diaries
    (DiaryList.st (fst (DiaryList.loadMoreDiaries_resume paged DiaryList.mounted))) =
    List.map DiaryList.convertApiToDiary [sample 1; sample 2].
Proof. cbv zeta. split; [|split]; reflexivity. Qed.

(** *** Deleting a diary *)

Lemma filter_removes_exactly :
  forall i l,
    MyDiary.removes_exactly i l
      (filter (fun diary => negb (MyDiary.id diary =? i)) l).
Proof.
  intros i. induction l as [|d l IH]; cbn.
  - constructor.
  - destruct (Z.eqb_spec (MyDiary.id d) i) as [E|E]; cbn.
    + now apply MyDiary.removes_drop.
    + now apply MyDiary.removes_keep.
Qed.

Lemma removes_exactly_In :
  forall i l l',
    MyDiary.removes_exactly i l l' ->
    forall d, In d l' <-> In d l /\ MyDiary.id d <> i.
Proof.
  induction 1 as [|d0 l l' E H IH|d0 l l' E H IH]; intros d; cbn.
  - tauto.
  - rewrite IH. split.
    + intros [Hin Hne]. split; [right; exact Hin|exact Hne].
    + intros [[->|Hin] Hne]; [congruence|split; assumption].
  - rewrite IH. split.
    + intros [->|[Hin Hne]]; [split; [left; reflexivity|exact E]|].
      split; [right; exact Hin|exact Hne].
    + intros [[->|Hin] Hne]; [left; reflexivity|right; split; assumption].
Qed.

Lemma removes_exactly_absent :
  forall i l l',
    MyDiary.removes_exactly i l l' ->
    (forall d, In d l -> MyDiary.id d <> i) -> l' = l.
Proof.
  induction 1 as [|d0 l l' E H IH|d0 l l' E H IH]; intros Habs.
  - reflexivity.
  - exfalso. apply (Habs d0); [left; reflexivity|exact E].
  - f_equal. apply IH. intros d Hd. apply Habs. right. exact Hd.
Qed.

(** C7. A confirmed delete that the server accepts removes from the list
    exactly the diaries with that identifier, every other diary staying in
    its place relative to the others, and sends the DELETE request only (no
    list request); if no diary has the identifier the list is unchanged.  A
    delete that fails leaves the list unchanged and shows the failure
    notice; a delete that is not confirmed does nothing. *)
Theorem handleDeleteDiary_removes_exactly :
  forall (i : Z) (w : MyDiary.World) (body : value MyDiary.Diary) (e : error)
         (o : outcome MyDiary.Diary),
    let ok := MyDiary.handleDeleteDiary true (Resolved body) i w in
    let ko := MyDiary.handleDeleteDiary true (Rejected e) i w in
    (snd ok = Normal tt /\
     MyDiary.removes_exactly i
       (MyDiary.diaries (MyDiary.st w)) (MyDiary.diaries (MyDiary.st (fst ok))) /\
     (forall d,
        In d (MyDiary.diaries (MyDiary.st (fst ok))) <->
        In d (MyDiary.diaries (MyDiary.st w)) /\ MyDiary.id d <> i) /\
     MyDiary.loading (MyDiary.st (fst ok)) = MyDiary.loading (MyDiary.st w) /\
     MyDiary.sent (fst ok) = MyDiary.sent w ++ [MyDiary.Delete i] /\
     ((forall d, In d (MyDiary.diaries (MyDiary.st w)) -> MyDiary.id d <> i) ->
      MyDiary.st (fst ok) = MyDiary.st w)) /\
    (snd ko = Normal tt /\
     MyDiary.st (fst ko) = MyDiary.st w /\
     MyDiary.sent (fst ko) = MyDiary.sent w ++ [MyDiary.Delete i] /\
     MyDiary.alerts (fst ko) = MyDiary.alerts w ++ ["일지 삭제에 실패했습니다."]) /\
    MyDiary.handleDeleteDiary false o i w = (w, Normal tt).
Proof.
  intros i [[ds l] sn al] body e o ok ko.
  assert (Hok : fst ok =
    {| MyDiary.st :=
         {| MyDiary.diaries := filter (fun diary => negb (MyDiary.id diary =? i)) ds;
            MyDiary.loading := l |};
       MyDiary.sent := sn ++ [MyDiary.Delete i];
       MyDiary.alerts := al ++ ["일지가 삭제되었습니다."] |}) by reflexivity.
  split; [|split; [|reflexivity]].
  - rewrite Hok. cbn [MyDiary.st MyDiary.diaries MyDiary.loading MyDiary.sent].
    pose proof (filter_removes_exactly i ds) as Hrem.
    split; [reflexivity|]. split; [exact Hrem|].
    split; [apply removes_exactly_In; exact Hrem|].
    split; [reflexivity|]. split; [reflexivity|].
    intros Habs. f_equal. eapply removes_exactly_absent; eassumption.
  - repeat split.
Qed.

Lemma handleDeleteDiary_removes_exactly_witness :
  MyDiary.diaries
    (MyDiary.st (fst (MyDiary.handleDeleteDiary true (Resolved VNull) 2 three_diaries))) =
    [my_sample 1; my_sample 3] /\
  MyDiary.st (fst (MyDiary.handleDeleteDiary true (Resolved VNull) 9 three_diaries)) =
    MyDiary.st three_diaries.
Proof.
  split.
  - reflexivity.
  - destruct (handleDeleteDiary_removes_exactly 9 three_diaries VNull TypeError
                (Resolved VNull)) as [[_ [_ [_ [_ [_ H]]]]] _].
    apply H. intros d [<-|[<-|[<-|[]]]]; discriminate.
Defined.

(** *** The party form *)

Lemma theme_check :
  forall t : number,
    negb (number_truthy t) || le t (Fin 0) = negb (lt (Fin 0) t).
Proof.
  intros [|q| |]; cbn; try reflexivity.
  rewrite !negb_involutive.
  destruct (Qeq_bool q 0) eqn:E; [|reflexivity].
  cbn. symmetry. apply Qle_bool_iff. apply Qeq_bool_iff in E.
  rewrite E. apply Qle_refl.
Qed.

Lemma future_check :
  forall (t : number) (now : Q),
    CreateParty.isNaN t = false ->
    le t (Fin now) = negb (lt (Fin now) t).
Proof.
  intros [|q| |] now H; cbn; try reflexivity; [discriminate|].
  now rewrite negb_involutive.
Qed.

Section PartyForm.
Variable parseInt10 : string -> number.
Variable Date_time : string -> number.
Variable toISOString : number -> string.
Variable text_of : value unit -> string.
Variable TypeError_message : string.

Lemma validate_cases :
  forall (f : CreateParty.PartyFormData) (now : Q),
    (CreateParty.invalid parseInt10 Date_time f now /\
     exists msg,
       In msg CreateParty.validation_messages /\
       CreateParty.validate parseInt10 Date_time toISOString f (Fin now) =
         Throw (Error msg)) \/
    (~ CreateParty.invalid parseInt10 Date_time f now /\
     CreateParty.validate parseInt10 Date_time toISOString f (Fin now) =
       Normal (CreateParty.request_of parseInt10 Date_time toISOString f)).
Proof.
  intros f now.
  unfold CreateParty.validate, CreateParty.invalid, CreateParty.validation_messages.
  rewrite theme_check.
  destruct (lt (Fin 0) (CreateParty.themeId f)) eqn:Ht; cbn [negb].
  2:{ left. split; [left; reflexivity|].
      eexists; split; [|reflexivity]. left; reflexivity. }
  destruct (lt (parseInt10 (CreateParty.totalParticipants f))
               (parseInt10 (CreateParty.participantsNeeded f))) eqn:Hp.
  { left. split; [right; left; reflexivity|].
    eexists; split; [|reflexivity]. right; left; reflexivity. }
  destruct (CreateParty.isNaN
              (Date_time (CreateParty.date f ++ "T" ++ CreateParty.time f))) eqn:Hn.
  { left. split; [right; right; left; reflexivity|].
    eexists; split; [|reflexivity]. right; right; left; reflexivity. }
  rewrite (future_check _ now Hn).
  destruct (lt (Fin now)
              (Date_time (CreateParty.date f ++ "T" ++ CreateParty.time f))) eqn:Hf;
    cbn [negb].
  - right. split; [|reflexivity].
    intros [H|[H|[H|H]]]; discriminate.
  - left. split; [right; right; right; reflexivity|].
    eexists; split; [|reflexivity]. right; right; right; left; reflexivity.
Qed.

(** C8. A submission of the party form that is invalid (theme identifier
    not strictly positive, more participants needed than the total, a date
    and time that do not parse, or a scheduled time not strictly after the
    present) sends no request and navigates nowhere, ends with one of the
    four validation messages as the error and not submitting, and leaves
    the form data as it was.  The request is sent exactly when none of the
    four holds, and is then the one built from the form. *)
Theorem handleSubmit_validation :
  forall (snap : CreateParty.State) (now : Q) (net : outcome unit)
         (w : CreateParty.World),
    let r :=
      CreateParty.handleSubmit parseInt10 Date_time toISOString text_of
        TypeError_message snap (Fin now) net w in
    (CreateParty.invalid parseInt10 Date_time (CreateParty.formData snap) now ->
     snd r = Normal tt /\
     CreateParty.sent (fst r) = CreateParty.sent w /\
     CreateParty.pushed (fst r) = CreateParty.pushed w /\
     (exists msg,
        In msg CreateParty.validation_messages /\
        CreateParty.error (CreateParty.st (fst r)) = Some msg) /\
     CreateParty.isSubmitting (CreateParty.st (fst r)) = false) /\
    (~ CreateParty.invalid parseInt10 Date_time (CreateParty.formData snap) now ->
     CreateParty.sent (fst r) =
       CreateParty.sent w ++
       [CreateParty.request_of parseInt10 Date_time toISOString
          (CreateParty.formData snap)]) /\
    CreateParty.formData (CreateParty.st (fst r)) =
      CreateParty.formData (CreateParty.st w).
Proof.
  intros snap now net [[f m1 m2 sub err] sn pu] r.
  destruct (validate_cases (CreateParty.formData snap) now)
    as [[Hinv [msg [Hmsg Hv]]]|[Hval Hv]].
  - assert (Hr : r =
      ({| CreateParty.st :=
            {| CreateParty.formData := f;
               CreateParty.isThemeSearchModalOpen := m1;
               CreateParty.isTimePickerModalOpen := m2;
               CreateParty.isSubmitting := false;
               CreateParty.error := Some msg |};
          CreateParty.sent := sn; CreateParty.pushed := pu |}, Normal tt)).
    { subst r. unfold CreateParty.handleSubmit.
      cbv [bind finally try_catch lift]. rewrite Hv. reflexivity. }
    rewrite Hr. cbn.
    split; [|split; [intros H; contradiction|reflexivity]].
    intros _. repeat split. exists msg. split; [exact Hmsg|reflexivity].
  - split; [intros H; contradiction|].
    subst r. unfold CreateParty.handleSubmit.
    cbv [bind finally try_catch lift]. rewrite Hv.
    destruct net as [body|e].
    + destruct body as [| |b|q|x|l|fs]; cbn; try (split; [intros _|]; reflexivity).
      destruct (own "data" fs) as [data|]; [|split; [intros _|]; reflexivity].
      destruct data as [| |b|q|x|l|dfs]; cbn; try (split; [intros _|]; reflexivity).
      destruct (own "id" dfs) as [v|]; [|split; [intros _|]; reflexivity].
      destruct (truthy v); split; try intros _; reflexivity.
    + destruct e as [|m [[s|]|]|m]; cbn; split; try intros _; reflexivity.
Qed.
End PartyForm.

Lemma handleSubmit_validation_witness :
  let w0 := {| CreateParty.st := party_form "never"; CreateParty.sent := [];
               CreateParty.pushed := [] |} in
  let w1 := {| CreateParty.st := party_form "2030-01-01"; CreateParty.sent := [];
               CreateParty.pushed := [] |} in
  CreateParty.sent
    (fst (CreateParty.handleSubmit sample_parseInt10 sample_Date_time
            (fun _ => "iso") (fun _ => "5") "type error"
            (party_form "never") (Fin 10) (Rejected TypeError) w0)) = [] /\
  List.length
    (CreateParty.sent
       (fst (CreateParty.handleSubmit sample_parseInt10 sample_Date_time
               (fun _ => "iso") (fun _ => "5") "type error"
               (party_form "2030-01-01") (Fin 10) (Rejected TypeError) w1))) = 1%nat.
Proof.
  cbv zeta. split.
  - apply (handleSubmit_validation sample_parseInt10 sample_Date_time
             (fun _ => "iso") (fun _ => "5") "type error"
             (party_form "never") 10 (Rejected TypeError)).
    right; right; left. reflexivity.
  - destruct (handleSubmit_validation sample_parseInt10 sample_Date_time
             (fun _ => "iso") (fun _ => "5") "type error"
             (party_form "2030-01-01") 10 (Rejected TypeError)
             {| CreateParty.st := party_form "2030-01-01"; CreateParty.sent := [];
                CreateParty.pushed := [] |}) as [_ [H _]].
    rewrite H; [reflexivity|].
    intros [H1|[H1|[H1|H1]]]; discriminate.
Defined.

(** *** Stars *)

Lemma nearest_is_round :
  forall (q : Q) (r : Z), MyDiary.nearest q r -> Qfloor (q + (1 # 2)) = r.
Proof.
  intros q r [Hlo Hhi].
  pose proof (Qfloor_le (q + (1 # 2))) as Hfl.
  pose proof (Qlt_floor (q + (1 # 2))) as Hfu.
  rewrite inject_Z_plus in Hfu.
  assert (H1 : (inject_Z r < inject_Z (Qfloor (q + (1 # 2)) + 1))%Q).
  { rewrite inject_Z_plus. change (inject_Z 1) with 1%Q in *. lra. }
  assert (H2 : (inject_Z (Qfloor (q + (1 # 2))) < inject_Z (r + 1))%Q).
  { rewrite inject_Z_plus. change (inject_Z 1) with 1%Q in *. lra. }
  rewrite <- Zlt_Qlt in H1, H2. lia.
Qed.

Lemma round_is_nearest :
  forall q : Q, MyDiary.nearest q (Qfloor (q + (1 # 2))).
Proof.
  intros q.
  pose proof (Qfloor_le (q + (1 # 2))) as Hfl.
  pose proof (Qlt_floor (q + (1 # 2))) as Hfu.
  rewrite inject_Z_plus in Hfu. change (inject_Z 1) with 1%Q in *.
  split; lra.
Qed.

Lemma star_filled :
  forall (index : nat) (r : Z),
    MyDiary.filled
      {| MyDiary.key := index;
         MyDiary.className :=
           "text-lg " ++
           (if lt (Fin (inject_Z (Z.of_nat index))) (Fin (inject_Z r))
            then "text-yellow-400" else "text-gray-300");
         MyDiary.glyph := "★" |} = (Z.of_nat index <? r).
Proof.
  intros index r. unfold MyDiary.filled, lt. cbn [MyDiary.className].
  assert (E : negb (Qle_bool (inject_Z r) (inject_Z (Z.of_nat index))) =
              (Z.of_nat index <? r)).
  { destruct (Z.ltb_spec (Z.of_nat index) r) as [H|H].
    - destruct (Qle_bool (inject_Z r) (inject_Z (Z.of_nat index))) eqn:Q;
        [|reflexivity].
      apply Qle_bool_iff in Q. rewrite <- Zle_Qle in Q. lia.
    - assert (Q : Qle_bool (inject_Z r) (inject_Z (Z.of_nat index)) = true).
      { apply Qle_bool_iff. rewrite <- Zle_Qle. exact H. }
      rewrite Q. reflexivity. }
  rewrite E. destruct (Z.of_nat index <? r); reflexivity.
Qed.

Lemma filled_stars_of_round :
  forall q : Q,
    List.map MyDiary.filled (MyDiary.renderStars (Fin q)) =
    List.map (fun index => Z.of_nat index <? Qfloor (q + (1 # 2))) (seq 0 5).
Proof.
  intros q. unfold MyDiary.renderStars, Math_round.
  rewrite map_map. apply map_ext. intros index. apply star_filled.
Qed.

Lemma filled_count_map :
  forall stars,
    MyDiary.filled_count stars =
    List.length (filter (fun b : bool => b) (List.map MyDiary.filled stars)).
Proof.
  unfold MyDiary.filled_count.
  induction stars as [|s stars IH]; cbn; [reflexivity|].
  destruct (MyDiary.filled s); cbn; now rewrite IH.
Qed.

(** C9. For every finite rating the renderer gives exactly five stars, the
    filled ones first, and as many filled as the integer nearest to the
    rating (a tie going up) clamped to the range from 0 to 5.  An infinite
    rating gives five filled stars, or none if negative. *)
Theorem renderStars_filled_count :
  forall (q : Q) (r : Z),
    MyDiary.nearest q r ->
    List.length (MyDiary.renderStars (Fin q)) = 5%nat /\
    MyDiary.filled_count (MyDiary.renderStars (Fin q)) = MyDiary.clamp5 r /\
    List.map MyDiary.filled (MyDiary.renderStars (Fin q)) =
      repeat true (MyDiary.clamp5 r) ++ repeat false (5 - MyDiary.clamp5 r) /\
    MyDiary.filled_count (MyDiary.renderStars PosInf) = 5%nat /\
    MyDiary.filled_count (MyDiary.renderStars NegInf) = 0%nat.
Proof.
  intros q r Hn. apply nearest_is_round in Hn.
  split; [reflexivity|].
  rewrite filled_count_map, filled_stars_of_round, Hn.
  unfold MyDiary.clamp5. cbn [seq List.map Z.of_nat Pos.of_succ_nat Pos.succ].
  clear Hn q.
  assert (C : r <= 0 \/ r = 1 \/ r = 2 \/ r = 3 \/ r = 4 \/ 5 <= r) by lia.
  destruct C as [C|[C|[C|[C|[C|C]]]]].
  - replace (Z.max 0 (Z.min 5 r)) with 0 by lia.
    replace (0 <? r) with false by (symmetry; apply Z.ltb_ge; lia).
    replace (1 <? r) with false by (symmetry; apply Z.ltb_ge; lia).
    replace (2 <? r) with false by (symmetry; apply Z.ltb_ge; lia).
    replace (3 <? r) with false by (symmetry; apply Z.ltb_ge; lia).
    replace (4 <? r) with false by (symmetry; apply Z.ltb_ge; lia).
    repeat split.
  - subst r. repeat split.
  - subst r. repeat split.
  - subst r. repeat split.
  - subst r. repeat split.
  - replace (Z.max 0 (Z.min 5 r)) with 5 by lia.
    replace (0 <? r) with true by (symmetry; apply Z.ltb_lt; lia).
    replace (1 <? r) with true by (symmetry; apply Z.ltb_lt; lia).
    replace (2 <? r) with true by (symmetry; apply Z.ltb_lt; lia).
    replace (3 <? r) with true by (symmetry; apply Z.ltb_lt; lia).
    replace (4 <? r) with true by (symmetry; apply Z.ltb_lt; lia).
    repeat split.
Qed.

Lemma renderStars_filled_count_witness :
  MyDiary.filled_count (MyDiary.renderStars (Fin (7 # 2))) = 4%nat /\
  List.map MyDiary.filled (MyDiary.renderStars (Fin (7 # 2))) =
    [true; true; true; true; false].
Proof.
  assert (H : MyDiary.nearest (7 # 2) 4).
  { split; unfold Qle, Qlt; cbn; lia. }
  destruct (renderStars_filled_count (7 # 2) 4 H) as [_ [Hc [Hm _]]].
  split; [exact Hc|exact Hm].
Defined.

(** A rating that is not a number fills no star. *)
Remark renderStars_NaN :
  MyDiary.filled_count (MyDiary.renderStars NaN) = 0%nat.
Proof. reflexivity. Qed.

(** *** The party list *)

Lemma key_eqb_eq :
  forall a b, Parties.key_eqb a b = true <-> a = b.
Proof.
  intros [x|] [y|]; cbn; split; intros H; try discriminate; try reflexivity.
  - apply String.eqb_eq in H. now subst.
  - inversion H. apply String.eqb_refl.
Qed.

Lemma Map_set_keys_In :
  forall k v m x,
    In x (List.map fst (Parties.Map_set k v m)) ->
    x = k \/ In x (List.map fst m).
Proof.
  intros k v. induction m as [|[k' v'] m IH]; intros x; cbn.
  - intros [H|[]]. left. now symmetry.
  - destruct (Parties.key_eqb k k'); cbn.
    + intros H. right. exact H.
    + intros [H|H]; [right; left; exact H|].
      destruct (IH x H) as [E|E]; [left; exact E|right; right; exact E].
Qed.

Lemma Map_set_keyed :
  forall v m, Parties.keyed m -> Parties.keyed (Parties.Map_set (Parties.id v) v m).
Proof.
  intros v. induction m as [|[k' v'] m IH]; intros [Hnd Hid]; cbn.
  - split; cbn; [constructor; [intros []|constructor]|].
    constructor; [reflexivity|constructor].
  - inversion Hnd as [|x l Hnotin Hnd']; subst.
    inversion Hid as [|x l Hk Hid']; subst. cbn [fst snd] in Hk.
    destruct (Parties.key_eqb (Parties.id v) k') eqn:E.
    + apply key_eqb_eq in E. split; cbn.
      * constructor; assumption.
      * constructor; [exact E|exact Hid'].
    + destruct (IH (conj Hnd' Hid')) as [Hnd2 Hid2].
      split; cbn.
      * constructor; [|exact Hnd2].
        intros Hin. apply Map_set_keys_In in Hin. destruct Hin as [Hin|Hin].
        -- assert (T : Parties.key_eqb (Parties.id v) k' = true)
             by (apply key_eqb_eq; now symmetry).
           congruence.
        -- contradiction.
      * constructor; [exact Hk|exact Hid2].
Qed.

Lemma fold_Map_set_keyed :
  forall l m,
    Parties.keyed m ->
    Parties.keyed (fold_left (fun m item => Parties.Map_set (Parties.id item) item m) l m).
Proof.
  induction l as [|v l IH]; intros m H; cbn; [exact H|].
  apply IH. apply Map_set_keyed. exact H.
Qed.

(** What [loadParties] shows never has two parties with one identifier. *)
Lemma uniqueParties_NoDup :
  forall l, NoDup (List.map Parties.id (Parties.uniqueParties l)).
Proof.
  intros l. unfold Parties.uniqueParties.
  destruct (fold_Map_set_keyed l [] (conj (NoDup_nil _) (Forall_nil _)))
    as [Hnd Hid].
  rewrite map_map.
  erewrite map_ext_in; [exact Hnd|].
  intros kv Hin. rewrite Forall_forall in Hid. apply Hid. exact Hin.
Qed.

(** Of two parties of one response with the same identifier, the place of
    the first and the content of the second are kept. *)
Remark uniqueParties_keeps_place_of_first :
  Parties.uniqueParties [room "1" "first"; room "2" "other"; room "1" "second"] =
    [room "1" "second"; room "2" "other"].
Proof. reflexivity. Qed.

(** A failed [loadParties] empties the list it finds and exhausts it. *)
Remark loadParties_failure_empties :
  forall (ts : Z -> string) (fmt : string -> string) (e : error) (w : Parties.World),
    let w' := fst (Parties.loadParties_resume ts fmt (Rejected e) w) in
    Parties.parties (Parties.st w') = [] /\
    Parties.hasMore (Parties.st w') = false /\
    Parties.loading (Parties.st w') = false.
Proof. intros ts fmt e [[ps p l h k r] sn]. repeat split. Qed.

(** A search on the party page empties the list, puts the page back to 1,
    leaves the exhaustion flag, and sends its request at once, with the
    keyword of the render the handler belongs to. *)
Remark parties_handleSearch :
  let r := Parties.handleSearch (Parties.st two_parties) "new" two_parties in
  Parties.parties (Parties.st (fst r)) = [] /\
  Parties.page (Parties.st (fst r)) = 1 /\
  Parties.searchKeyword (Parties.st (fst r)) = "new" /\
  Parties.sent (fst r) = [{| Parties.keyword := "old"; Parties.region := "" |}].
Proof. cbv zeta. repeat split. Qed.

(* ================================================================== *)
(** * Further properties of the handlers *)

(** *** Runs of loads of the diary list *)

(** What one call of [loadMoreDiaries] from the render of the current state
    can do, its request settled. *)
Lemma load_step_cases :
  forall w net,
    let w1 := fst (DiaryList.loadMoreDiaries (DiaryList.st w) net w) in
    w1 = w \/
    (DiaryList.loading (DiaryList.st w) = false /\
     DiaryList.hasMore (DiaryList.st w) = true /\
     (w1 = DiaryList.exhausted (DiaryList.started (DiaryList.st w) w) \/
      exists items last,
        items <> [] /\
        w1 = DiaryList.appended items last (DiaryList.started (DiaryList.st w) w))).
Proof.
  intros w net w1. subst w1.
  destruct (DiaryList.loading (DiaryList.st w)) eqn:Hl.
  { left. rewrite loadMoreDiaries_guarded; [reflexivity|]. now rewrite Hl. }
  destruct (DiaryList.hasMore (DiaryList.st w)) eqn:Hh.
  2:{ left. rewrite loadMoreDiaries_guarded; [reflexivity|]. now rewrite Hl, Hh. }
  right. split; [reflexivity|]. split; [reflexivity|].
  rewrite (loadMoreDiaries_idle _ _ Hl Hh), loadMoreDiaries_resume_cases.
  destruct (DiaryList.nonempty_page _) as [[items last]|] eqn:E.
  - right. exists items, last. split; [|reflexivity].
    unfold DiaryList.nonempty_page in E.
    destruct (net _) as [[| |b|q|x|l|fs]|e]; try discriminate.
    destruct (own "data" fs) as [[| |b|q|x|l|dfs]|]; try discriminate.
    destruct (own "content" dfs) as [[| |b|q|x|[|i l]|cfs]|]; try discriminate.
    inversion E. discriminate.
  - left. reflexivity.
Qed.

Lemma loads_guarded :
  forall rs w,
    DiaryList.loading (DiaryList.st w) || negb (DiaryList.hasMore (DiaryList.st w)) = true ->
    DiaryList.loads rs w = w.
Proof.
  induction rs as [|r rs IH]; intros w H; [reflexivity|].
  cbn [DiaryList.loads]. rewrite (loadMoreDiaries_guarded _ _ _ H). cbn [fst].
  apply IH. exact H.
Qed.

(** X1. Whatever the requests settle to (pages, empty pages, malformed
    bodies, failures), a run of loads only extends the accumulated list and
    the log of requests: what was there stays, in place, at the front; the
    page cursor never goes down and the query is not touched. *)
Theorem loads_only_extend :
  forall (rs : list (outcome DiaryList.DiaryApiResponse)) (w : DiaryList.World),
    let w' := DiaryList.loads rs w in
    (exists added,
        DiaryList.diaries (DiaryList.st w') =
        DiaryList.diaries (DiaryList.st w) ++ added) /\
    (exists reqs, DiaryList.sent w' = DiaryList.sent w ++ reqs) /\
    DiaryList.page (DiaryList.st w) <= DiaryList.page (DiaryList.st w') /\
    DiaryList.searchKeyword (DiaryList.st w') = DiaryList.searchKeyword (DiaryList.st w) /\
    DiaryList.activeFilters (DiaryList.st w') = DiaryList.activeFilters (DiaryList.st w).
Proof.
  induction rs as [|r rs IH]; intros w; cbn zeta.
  - cbn. repeat split; try lia; exists []; now rewrite app_nil_r.
  - cbn [DiaryList.loads].
    specialize (IH (fst (DiaryList.loadMoreDiaries (DiaryList.st w) (fun _ => r) w))).
    cbn zeta in IH.
    destruct IH as [[a Ha] [[q Hq] [Hp [Hk Hf]]]].
    destruct (load_step_cases w (fun _ => r)) as [E|[_ [_ [E|[items [last [_ E]]]]]]];
      cbn zeta in E; rewrite E in *; clear E.
    + repeat split; try assumption; eauto.
    + cbn in *. repeat split; try assumption.
      * exists a. exact Ha.
      * exists (DiaryList.requestData (DiaryList.st w) :: q).
        rewrite Hq, <- app_assoc. reflexivity.
    + cbn in *. repeat split; try assumption; try lia.
      * exists (List.map DiaryList.convertApiToDiary items ++ a).
        rewrite Ha, <- app_assoc. reflexivity.
      * exists (DiaryList.requestData (DiaryList.st w) :: q).
        rewrite Hq, <- app_assoc. reflexivity.
Qed.

(** X2. In a run of loads the requests sent ask for consecutive pages,
    starting at the page cursor: no page is asked for twice and none is
    skipped, every request asks for 12 items, and there are at most as many
    requests as calls. *)
Theorem requests_ask_consecutive_pages :
  forall (rs : list (outcome DiaryList.DiaryApiResponse)) (w : DiaryList.World),
    exists reqs,
      DiaryList.sent (DiaryList.loads rs w) = DiaryList.sent w ++ reqs /\
      (List.length reqs <= List.length rs)%nat /\
      List.map DiaryList.req_page reqs =
        List.map (fun k => DiaryList.page (DiaryList.st w) + Z.of_nat k)
          (seq 0 (List.length reqs)) /\
      Forall (fun q => DiaryList.size q = 12) reqs.
Proof.
  induction rs as [|r rs IH]; intros w.
  - exists []. cbn. rewrite app_nil_r. repeat split; [lia|constructor].
  - cbn [DiaryList.loads].
    destruct (load_step_cases w (fun _ => r)) as [E|[_ [_ [E|[items [last [_ E]]]]]]];
      cbn zeta in E; rewrite E; clear E.
    + destruct (IH w) as [reqs [Hs [Hl [Hp Hz]]]].
      exists reqs. repeat split; try assumption. cbn. lia.
    + rewrite loads_guarded by reflexivity.
      exists [DiaryList.requestData (DiaryList.st w)].
      cbn. repeat split; [lia|f_equal; lia|].
      constructor; [reflexivity|constructor].
    + destruct (IH (DiaryList.appended items last
                      (DiaryList.started (DiaryList.st w) w)))
        as [reqs [Hs [Hl [Hp Hz]]]].
      exists (DiaryList.requestData (DiaryList.st w) :: reqs).
      rewrite Hs. cbn [DiaryList.appended DiaryList.started DiaryList.sent
                       DiaryList.st DiaryList.page] in *.
      rewrite <- app_assoc. repeat split.
      * cbn. lia.
      * cbn [List.map List.length seq]. f_equal.
        -- cbn. lia.
        -- rewrite Hp, <- seq_shift, map_map. apply map_ext. intros k. lia.
      * constructor; [reflexivity|exact Hz].
Qed.

(** X3. A failed request, like an empty page, ends the session: from an
    idle list one request is sent, the list is exhausted, and however many
    calls follow none sends a request or changes anything. *)
Theorem failure_ends_the_session :
  forall (e : error) (rs : list (outcome DiaryList.DiaryApiResponse))
         (w : DiaryList.World),
    DiaryList.load_state (DiaryList.st w) = DiaryList.Idle ->
    let w' := DiaryList.loads (Rejected e :: rs) w in
    w' = DiaryList.exhausted (DiaryList.started (DiaryList.st w) w) /\
    w' = DiaryList.loads
           (Resolved (DiaryList.page_body [] false) :: rs) w /\
    DiaryList.sent w' = DiaryList.sent w ++ [DiaryList.requestData (DiaryList.st w)] /\
    DiaryList.diaries (DiaryList.st w') = DiaryList.diaries (DiaryList.st w) /\
    DiaryList.load_state (DiaryList.st w') = DiaryList.Exhausted.
Proof.
  intros e rs w Hidle.
  assert (Hl : DiaryList.loading (DiaryList.st w) = false).
  { unfold DiaryList.load_state in Hidle.
    destruct (DiaryList.loading (DiaryList.st w)); [discriminate|reflexivity]. }
  assert (Hh : DiaryList.hasMore (DiaryList.st w) = true).
  { unfold DiaryList.load_state in Hidle. rewrite Hl in Hidle.
    destruct (DiaryList.hasMore (DiaryList.st w)); [reflexivity|discriminate]. }
  cbn zeta. cbn [DiaryList.loads].
  rewrite !(loadMoreDiaries_idle _ _ Hl Hh), !loadMoreDiaries_resume_cases.
  cbn [DiaryList.nonempty_page fst].
  rewrite !loads_guarded by reflexivity.
  repeat split.
Qed.

Lemma failure_ends_the_session_witness :
  DiaryList.sent
    (DiaryList.loads [Rejected TypeError; Resolved (DiaryList.page_body [sample 1] false)]
       DiaryList.mounted) =
    [DiaryList.requestData DiaryList.initial] /\
  DiaryList.diaries
    (DiaryList.st
       (DiaryList.loads [Rejected TypeError; Resolved (DiaryList.page_body [sample 1] false)]
          DiaryList.mounted)) = [].
Proof.
  destruct (failure_ends_the_session TypeError
              [Resolved (DiaryList.page_body [sample 1] false)]
              DiaryList.mounted eq_refl) as [_ [_ [Hs [Hd _]]]].
  split; [exact Hs|exact Hd].
Defined.

(** *** The load scheduled by a query change *)

(** X4. The load that a query change schedules is decided by the render
    that scheduled it, not by the state when it runs: it sends a request
    exactly when that render was idle, whatever the loading flag is by
    then, and the request carries the page and the query of that render
    while the state it runs in has been reset to page 0. *)
Theorem scheduled_load_belongs_to_its_render :
  forall (snap : DiaryList.State) (c : DiaryList.query_change) (w : DiaryList.World),
    DiaryList.timers w = [] ->
    let w1 := fst (DiaryList.change_query snap c w) in
    let r := DiaryList.run_timer w1 in
    DiaryList.page (DiaryList.st (fst r)) = 0 /\
    DiaryList.timers (fst r) = [] /\
    (DiaryList.load_state snap = DiaryList.Idle ->
     snd r = Normal (Some (DiaryList.requestData snap)) /\
     DiaryList.sent (fst r) = DiaryList.sent w ++ [DiaryList.requestData snap] /\
     DiaryList.loading (DiaryList.st (fst r)) = true) /\
    (DiaryList.load_state snap <> DiaryList.Idle ->
     snd r = Normal None /\
     DiaryList.sent (fst r) = DiaryList.sent w /\
     DiaryList.st (fst r) = DiaryList.st w1).
Proof.
  intros snap c [[k o f p l h d] sn tm] Htm. cbn in Htm. subst tm.
  assert (Ht : DiaryList.timers
                 (fst (DiaryList.change_query snap c
                         {| DiaryList.st :=
                              {| DiaryList.searchKeyword := k;
                                 DiaryList.isFilterOpen := o;
                                 DiaryList.activeFilters := f;
                                 DiaryList.page := p; DiaryList.loading := l;
                                 DiaryList.hasMore := h; DiaryList.diaries := d |};
                            DiaryList.sent := sn; DiaryList.timers := [] |})) = [snap])
    by (destruct c as [k'|f'|[| |]|]; reflexivity).
  cbn zeta. unfold DiaryList.run_timer. rewrite Ht.
  destruct (DiaryList.loading snap) eqn:Hl;
    [|destruct (DiaryList.hasMore snap) eqn:Hh].
  - rewrite loadMoreDiaries_begin_guarded by (now rewrite Hl).
    unfold DiaryList.load_state. rewrite Hl.
    destruct c as [k'|f'|[| |]|]; cbn; repeat split; congruence.
  - rewrite (loadMoreDiaries_begin_idle _ _ Hl Hh).
    unfold DiaryList.load_state. rewrite Hl, Hh.
    destruct c as [k'|f'|[| |]|]; cbn; repeat split; congruence.
  - rewrite loadMoreDiaries_begin_guarded by (now rewrite Hl, Hh).
    unfold DiaryList.load_state. rewrite Hl, Hh.
    destruct c as [k'|f'|[| |]|]; cbn; repeat split; congruence.
Qed.

Lemma scheduled_load_belongs_to_its_render_witness :
  let w :=
    DiaryList.appended [sample 1; sample 2] false
      (DiaryList.started DiaryList.initial DiaryList.mounted) in
  let w1 := fst (DiaryList.change_query (DiaryList.st w) (DiaryList.Search "mystery") w) in
  List.map DiaryList.req_page (DiaryList.sent (fst (DiaryList.run_timer w1))) = [0; 1] /\
  DiaryList.page (DiaryList.st (fst (DiaryList.run_timer w1))) = 0.
Proof.
  cbv zeta.
  destruct (scheduled_load_belongs_to_its_render
              (DiaryList.st (DiaryList.appended [sample 1; sample 2] false
                               (DiaryList.started DiaryList.initial DiaryList.mounted)))
              (DiaryList.Search "mystery")
              (DiaryList.appended [sample 1; sample 2] false
                 (DiaryList.started DiaryList.initial DiaryList.mounted))
              eq_refl) as [Hp [_ [Hidle _]]].
  destruct (Hidle eq_refl) as [_ [Hs _]].
  split; [rewrite Hs; reflexivity|exact Hp].
Defined.

Lemma non_empty_not_empty :
  forall s, DiaryList.non_empty s <> Some "".
Proof.
  intros s. unfold DiaryList.non_empty.
  destruct (String.eqb s "") eqn:E; [discriminate|].
  intros H. inversion H. subst. discriminate.
Qed.

(** X5. The request of the diary list never carries an empty keyword or an
    empty date: an empty text is left out.  The keyword is left out exactly
    when the search text is empty, and the success flag exactly when no
    success filter is set. *)
Theorem requestData_omits_empty_fields :
  forall snap : DiaryList.State,
    let q := DiaryList.requestData snap in
    DiaryList.keyword q <> Some "" /\
    DiaryList.startDate q <> Some "" /\
    DiaryList.endDate q <> Some "" /\
    (DiaryList.keyword q = None <-> DiaryList.searchKeyword snap = "") /\
    (DiaryList.searchKeyword snap <> "" ->
     DiaryList.keyword q = Some (DiaryList.searchKeyword snap)) /\
    (DiaryList.dateRange (DiaryList.activeFilters snap) = None ->
     DiaryList.startDate q = None /\ DiaryList.endDate q = None) /\
    DiaryList.req_isSuccess q = DiaryList.filter_success (DiaryList.activeFilters snap).
Proof.
  intros snap. cbn zeta. unfold DiaryList.requestData.
  cbn [DiaryList.keyword DiaryList.startDate DiaryList.endDate DiaryList.req_isSuccess].
  split; [|split; [|split; [|split; [|split; [|split]]]]].
  - apply non_empty_not_empty.
  - destruct (DiaryList.dateRange _); [apply non_empty_not_empty|discriminate].
  - destruct (DiaryList.dateRange _); [apply non_empty_not_empty|discriminate].
  - unfold DiaryList.non_empty.
    destruct (String.eqb_spec (DiaryList.searchKeyword snap) "") as [E|E].
    + split; intros _; [exact E|reflexivity].
    + split; intros H; [discriminate|contradiction].
  - intros H. unfold DiaryList.non_empty.
    destruct (String.eqb_spec (DiaryList.searchKeyword snap) ""); [contradiction|reflexivity].
  - intros H. rewrite H. split; reflexivity.
  - reflexivity.
Qed.

Lemma requestData_omits_empty_fields_witness :
  DiaryList.keyword
    (DiaryList.requestData
       (DiaryList.st (fst (DiaryList.handleSearch DiaryList.initial "mystery"
                             DiaryList.mounted)))) = Some "mystery" /\
  DiaryList.startDate (DiaryList.requestData DiaryList.initial) = None.
Proof.
  split.
  - apply (requestData_omits_empty_fields
             (DiaryList.st (fst (DiaryList.handleSearch DiaryList.initial "mystery"
                                   DiaryList.mounted)))).
    cbn. discriminate.
  - apply (requestData_omits_empty_fields DiaryList.initial). reflexivity.
Defined.

(** *** Deleting diaries, again and in turn *)

Lemma deleted_diaries :
  forall (i : Z) (body : value MyDiary.Diary) (w : MyDiary.World),
    MyDiary.diaries
      (MyDiary.st (fst (MyDiary.handleDeleteDiary true (Resolved body) i w))) =
    filter (fun diary => negb (MyDiary.id diary =? i)) (MyDiary.diaries (MyDiary.st w)).
Proof. intros i body [[ds l] sn al]. reflexivity. Qed.

Lemma filter_filter_comm :
  forall (A : Type) (f g : A -> bool) (l : list A),
    filter f (filter g l) = filter g (filter f l).
Proof.
  intros A f g. induction l as [|a l IH]; cbn; [reflexivity|].
  destruct (f a) eqn:Ef, (g a) eqn:Eg; cbn; rewrite ?Ef, ?Eg, IH; reflexivity.
Qed.

Lemma filter_idem :
  forall (A : Type) (f : A -> bool) (l : list A),
    filter f (filter f l) = filter f l.
Proof.
  intros A f. induction l as [|a l IH]; cbn; [reflexivity|].
  destruct (f a) eqn:Ef; cbn; rewrite ?Ef, IH; reflexivity.
Qed.

(** X6. Deleting the same diary a second time changes nothing in the list,
    and two deletes give the same list in either order. *)
Theorem deletes_commute :
  forall (i j : Z) (b1 b2 b3 b4 : value MyDiary.Diary) (w : MyDiary.World),
    let del k b v := fst (MyDiary.handleDeleteDiary true (Resolved b) k v) in
    MyDiary.diaries (MyDiary.st (del i b2 (del i b1 w))) =
      MyDiary.diaries (MyDiary.st (del i b1 w)) /\
    MyDiary.diaries (MyDiary.st (del i b2 (del j b1 w))) =
      MyDiary.diaries (MyDiary.st (del j b4 (del i b3 w))).
Proof.
  intros i j b1 b2 b3 b4 w. cbv beta zeta. rewrite !deleted_diaries. split.
  - apply filter_idem.
  - apply filter_filter_comm.
Qed.

Lemma filter_absent :
  forall (i : Z) (l : list MyDiary.Diary),
    ~ In i (List.map MyDiary.id l) ->
    filter (fun diary => negb (MyDiary.id diary =? i)) l = l.
Proof.
  intros i. induction l as [|d l IH]; cbn; intros H; [reflexivity|].
  destruct (Z.eqb_spec (MyDiary.id d) i) as [E|E]; cbn.
  - exfalso. apply H. left. exact E.
  - f_equal. apply IH. intros Hin. apply H. right. exact Hin.
Qed.

Lemma filter_ids_subset :
  forall (i x : Z) (l : list MyDiary.Diary),
    In x (List.map MyDiary.id (filter (fun diary => negb (MyDiary.id diary =? i)) l)) ->
    In x (List.map MyDiary.id l) /\ x <> i.
Proof.
  intros i x. induction l as [|d l IH]; cbn; [intros []|].
  destruct (Z.eqb_spec (MyDiary.id d) i) as [E|E]; cbn.
  - intros H. destruct (IH H) as [H1 H2]. split; [right; exact H1|exact H2].
  - intros [H|H].
    + split; [left; exact H|congruence].
    + destruct (IH H) as [H1 H2]. split; [right; exact H1|exact H2].
Qed.

Lemma filter_ids_NoDup :
  forall (i : Z) (l : list MyDiary.Diary),
    NoDup (List.map MyDiary.id l) ->
    NoDup (List.map MyDiary.id (filter (fun diary => negb (MyDiary.id diary =? i)) l)).
Proof.
  intros i. induction l as [|d l IH]; cbn; intros H; [constructor|].
  inversion H as [|x xs Hnotin Hnd]; subst.
  destruct (Z.eqb_spec (MyDiary.id d) i) as [E|E]; cbn.
  - apply IH. exact Hnd.
  - constructor; [|apply IH; exact Hnd].
    intros Hin. apply filter_ids_subset in Hin. tauto.
Qed.

Lemma filter_present_length :
  forall (i : Z) (l : list MyDiary.Diary),
    NoDup (List.map MyDiary.id l) ->
    In i (List.map MyDiary.id l) ->
    S (List.length (filter (fun diary => negb (MyDiary.id diary =? i)) l)) =
    List.length l.
Proof.
  intros i. induction l as [|d l IH]; cbn; intros Hnd Hin; [contradiction|].
  inversion Hnd as [|x xs Hnotin Hnd']; subst.
  destruct (Z.eqb_spec (MyDiary.id d) i) as [E|E]; cbn.
  - subst i. rewrite filter_absent by exact Hnotin. reflexivity.
  - f_equal. apply IH; [exact Hnd'|]. destruct Hin as [H|H]; [contradiction|exact H].
Qed.

(** X7. On a list whose diaries have distinct identifiers, a successful
    delete of an identifier that is shown removes exactly one row; the
    identifiers stay distinct and the deleted one is gone. *)
Theorem delete_removes_one_row :
  forall (i : Z) (body : value MyDiary.Diary) (w : MyDiary.World),
    NoDup (List.map MyDiary.id (MyDiary.diaries (MyDiary.st w))) ->
    In i (List.map MyDiary.id (MyDiary.diaries (MyDiary.st w))) ->
    let after :=
      MyDiary.diaries
        (MyDiary.st (fst (MyDiary.handleDeleteDiary true (Resolved body) i w))) in
    S (List.length after) = List.length (MyDiary.diaries (MyDiary.st w)) /\
    NoDup (List.map MyDiary.id after) /\
    ~ In i (List.map MyDiary.id after).
Proof.
  intros i body w Hnd Hin after. subst after. rewrite deleted_diaries.
  split; [apply filter_present_length; assumption|].
  split; [apply filter_ids_NoDup; assumption|].
  intros H. apply filter_ids_subset in H. destruct H as [_ H]. congruence.
Qed.

Lemma delete_removes_one_row_witness :
  S (List.length
       (MyDiary.diaries
          (MyDiary.st (fst (MyDiary.handleDeleteDiary true (Resolved VNull) 2
                              three_diaries))))) =
  List.length (MyDiary.diaries (MyDiary.st three_diaries)).
Proof.
  assert (Hnd : NoDup (List.map MyDiary.id (MyDiary.diaries (MyDiary.st three_diaries)))).
  { cbn. repeat constructor; cbn; intros H; repeat destruct H as [H|H];
      try discriminate; try contradiction. }
  assert (Hin : In 2 (List.map MyDiary.id (MyDiary.diaries (MyDiary.st three_diaries)))).
  { cbn. right. left. reflexivity. }
  destruct (delete_removes_one_row 2 VNull three_diaries Hnd Hin) as [H _].
  exact H.
Defined.

(** X8. When the request of [fetchDiaries] fails, or answers with no body,
    the handler ends silently: the list is what it was, the page is no
    longer loading, one request was sent and no alert is shown. *)
Theorem fetchDiaries_failure_is_silent :
  forall (e : error) (w : MyDiary.World),
    let r := MyDiary.fetchDiaries (Rejected e) w in
    let r0 := MyDiary.fetchDiaries (Resolved VNull) w in
    snd r = Normal tt /\
    MyDiary.diaries (MyDiary.st (fst r)) = MyDiary.diaries (MyDiary.st w) /\
    MyDiary.loading (MyDiary.st (fst r)) = false /\
    MyDiary.sent (fst r) = MyDiary.sent w ++ [MyDiary.PostList] /\
    MyDiary.alerts (fst r) = MyDiary.alerts w /\
    fst r0 = fst r.
Proof. intros e [[ds l] sn al]. repeat split. Qed.

(** *** Stars and ratings *)

Lemma filled_below :
  forall r : Z,
    List.length
      (filter (fun b : bool => b)
         (List.map (fun index => Z.of_nat index <? r) (seq 0 5))) =
    MyDiary.clamp5 r.
Proof.
  intros r. unfold MyDiary.clamp5.
  cbn [seq List.map Z.of_nat Pos.of_succ_nat Pos.succ].
  assert (C : r <= 0 \/ r = 1 \/ r = 2 \/ r = 3 \/ r = 4 \/ 5 <= r) by lia.
  destruct C as [C|[C|[C|[C|[C|C]]]]]; try (subst r; reflexivity).
  - replace (Z.max 0 (Z.min 5 r)) with 0 by lia.
    replace (0 <? r) with false by (symmetry; apply Z.ltb_ge; lia).
    replace (1 <? r) with false by (symmetry; apply Z.ltb_ge; lia).
    replace (2 <? r) with false by (symmetry; apply Z.ltb_ge; lia).
    replace (3 <? r) with false by (symmetry; apply Z.ltb_ge; lia).
    replace (4 <? r) with false by (symmetry; apply Z.ltb_ge; lia).
    reflexivity.
  - replace (Z.max 0 (Z.min 5 r)) with 5 by lia.
    replace (0 <? r) with true by (symmetry; apply Z.ltb_lt; lia).
    replace (1 <? r) with true by (symmetry; apply Z.ltb_lt; lia).
    replace (2 <? r) with true by (symmetry; apply Z.ltb_lt; lia).
    replace (3 <? r) with true by (symmetry; apply Z.ltb_lt; lia).
    replace (4 <? r) with true by (symmetry; apply Z.ltb_lt; lia).
    reflexivity.
Qed.

Lemma filled_count_round :
  forall q : Q,
    MyDiary.filled_count (MyDiary.renderStars (Fin q)) =
    MyDiary.clamp5 (Qfloor (q + (1 # 2))).
Proof.
  intros q. rewrite filled_count_map, filled_stars_of_round. apply filled_below.
Qed.

(** X9. A higher rating never shows fewer filled stars.  A rating below
    one half shows none, a rating from four and a half on shows five. *)
Theorem stars_grow_with_rating :
  forall q1 q2 : Q,
    (q1 <= q2)%Q ->
    (MyDiary.filled_count (MyDiary.renderStars (Fin q1)) <=
     MyDiary.filled_count (MyDiary.renderStars (Fin q2)))%nat /\
    ((q1 < 1 # 2)%Q -> MyDiary.filled_count (MyDiary.renderStars (Fin q1)) = 0%nat) /\
    ((9 # 2 <= q1)%Q -> MyDiary.filled_count (MyDiary.renderStars (Fin q1)) = 5%nat).
Proof.
  intros q1 q2 Hle. rewrite !filled_count_round. unfold MyDiary.clamp5.
  assert (Hm : Qfloor (q1 + (1 # 2)) <= Qfloor (q2 + (1 # 2))).
  { apply Qfloor_resp_le. lra. }
  split; [lia|]. split.
  - intros H.
    assert (Qfloor (q1 + (1 # 2)) < 1).
    { pose proof (Qfloor_le (q1 + (1 # 2))) as F.
      rewrite Zlt_Qlt. change (inject_Z 1) with 1%Q. lra. }
    lia.
  - intros H.
    assert (5 <= Qfloor (q1 + (1 # 2))).
    { pose proof (Qlt_floor (q1 + (1 # 2))) as F.
      rewrite inject_Z_plus in F. change (inject_Z 1) with 1%Q in F.
      assert (G : (inject_Z 4 < inject_Z (Qfloor (q1 + (1 # 2))))%Q).
      { change (inject_Z 4) with 4%Q. lra. }
      rewrite <- Zlt_Qlt in G. lia. }
    lia.
Qed.

Lemma stars_grow_with_rating_witness :
  (MyDiary.filled_count (MyDiary.renderStars (Fin (3 # 2))) <=
   MyDiary.filled_count (MyDiary.renderStars (Fin (7 # 2))))%nat.
Proof.
  apply (stars_grow_with_rating (3 # 2) (7 # 2)).
  unfold Qle. cbn. lia.
Defined.

(** *** What the party list shows *)

Lemma Map_set_keys :
  forall k v m x,
    In x (List.map fst (Parties.Map_set k v m)) <->
    x = k \/ In x (List.map fst m).
Proof.
  intros k v m x. split; [apply Map_set_keys_In|].
  induction m as [|[k' v'] m IH]; cbn.
  - intros [H|[]]. left. now symmetry.
  - destruct (Parties.key_eqb k k') eqn:E; cbn.
    + apply key_eqb_eq in E. subst k'.
      intros [H|[H|H]]; [left; now symmetry|left; exact H|right; exact H].
    + intros [H|[H|H]]; [right; apply IH; left; exact H|left; exact H|].
      right. apply IH. right. exact H.
Qed.

Lemma Map_set_values :
  forall k v m kv,
    In kv (Parties.Map_set k v m) -> snd kv = v \/ In kv m.
Proof.
  intros k v. induction m as [|[k' v'] m IH]; intros kv; cbn.
  - intros [H|[]]. left. subst kv. reflexivity.
  - destruct (Parties.key_eqb k k'); cbn.
    + intros [H|H]; [left; subst kv; reflexivity|right; right; exact H].
    + intros [H|H]; [right; left; exact H|].
      destruct (IH kv H) as [E|E]; [left; exact E|right; right; exact E].
Qed.

Lemma Map_set_sets :
  forall k v m, In (k, v) (Parties.Map_set k v m).
Proof.
  intros k v. induction m as [|[k' v'] m IH]; cbn.
  - left. reflexivity.
  - destruct (Parties.key_eqb k k') eqn:E; cbn.
    + apply key_eqb_eq in E. subst k'. left. reflexivity.
    + right. exact IH.
Qed.

Lemma Map_set_other :
  forall k v m k0 v0,
    k <> k0 -> In (k0, v0) m -> In (k0, v0) (Parties.Map_set k v m).
Proof.
  intros k v m k0 v0 Hne. induction m as [|[k' v'] m IH]; cbn; [intros []|].
  destruct (Parties.key_eqb k k') eqn:E; cbn.
  - apply key_eqb_eq in E. subst k'.
    intros [H|H]; [inversion H; congruence|right; exact H].
  - intros [H|H]; [left; exact H|right; apply IH; exact H].
Qed.

Lemma Map_set_fresh :
  forall k v m,
    ~ In k (List.map fst m) -> Parties.Map_set k v m = m ++ [(k, v)].
Proof.
  intros k v. induction m as [|[k' v'] m IH]; cbn; intros H; [reflexivity|].
  destruct (Parties.key_eqb k k') eqn:E.
  - apply key_eqb_eq in E. subst k'. exfalso. apply H. left. reflexivity.
  - f_equal. apply IH. intros Hin. apply H. right. exact Hin.
Qed.

(** The [Map] after the items of [l] were set in turn, from [m]. *)
Lemma fold_keys :
  forall l m x,
    In x (List.map fst
            (fold_left (fun m item => Parties.Map_set (Parties.id item) item m) l m)) <->
    In x (List.map fst m) \/ In x (List.map Parties.id l).
Proof.
  induction l as [|v l IH]; intros m x; cbn; [tauto|].
  rewrite IH, Map_set_keys. split.
  - intros [[H|H]|H]; [right; left; now symmetry|left; exact H|right; right; exact H].
  - intros [H|[H|H]]; [left; right; exact H|left; left; now symmetry|right; exact H].
Qed.

Lemma fold_values :
  forall l m kv,
    In kv (fold_left (fun m item => Parties.Map_set (Parties.id item) item m) l m) ->
    In (snd kv) l \/ In kv m.
Proof.
  induction l as [|v l IH]; intros m kv; cbn; [intros H; right; exact H|].
  intros H. destruct (IH _ _ H) as [E|E]; [left; right; exact E|].
  destruct (Map_set_values _ _ _ _ E) as [E'|E'];
    [left; left; now symmetry|right; exact E'].
Qed.

Lemma fold_keeps :
  forall l m k0 v0,
    ~ In k0 (List.map Parties.id l) ->
    In (k0, v0) m ->
    In (k0, v0)
      (fold_left (fun m item => Parties.Map_set (Parties.id item) item m) l m).
Proof.
  induction l as [|v l IH]; intros m k0 v0 Hn Hin; cbn; [exact Hin|].
  apply IH.
  - intros H. apply Hn. right. exact H.
  - apply Map_set_other; [|exact Hin].
    intros E. apply Hn. left. exact E.
Qed.

Lemma fold_fresh :
  forall l m,
    NoDup (List.map Parties.id l) ->
    (forall k, In k (List.map Parties.id l) -> ~ In k (List.map fst m)) ->
    fold_left (fun m item => Parties.Map_set (Parties.id item) item m) l m =
    m ++ List.map (fun item => (Parties.id item, item)) l.
Proof.
  induction l as [|v l IH]; intros m Hnd Hdis; cbn; [now rewrite app_nil_r|].
  inversion Hnd as [|x xs Hnotin Hnd']; subst.
  rewrite Map_set_fresh by (apply Hdis; left; reflexivity).
  rewrite IH; [rewrite <- app_assoc; reflexivity|exact Hnd'|].
  intros k Hk. rewrite map_app. cbn. intros Hin. apply in_app_or in Hin.
  destruct Hin as [Hin|[Hin|[]]].
  - apply (Hdis k); [right; exact Hk|exact Hin].
  - subst k. contradiction.
Qed.

Lemma uniqueParties_ids :
  forall l,
    List.map Parties.id (Parties.uniqueParties l) =
    List.map fst
      (fold_left (fun m item => Parties.Map_set (Parties.id item) item m) l []).
Proof.
  intros l. unfold Parties.uniqueParties.
  destruct (fold_Map_set_keyed l [] (conj (NoDup_nil _) (Forall_nil _)))
    as [_ Hid].
  rewrite map_map. apply map_ext_in.
  intros kv Hin. rewrite Forall_forall in Hid. apply Hid. exact Hin.
Qed.

(** X10. Of the parties of one response, [uniqueParties] shows every
    identifier that occurs, shows only parties of the response, and for an
    identifier that occurs several times shows the last party carrying
    it. *)
Theorem uniqueParties_shows_last_of_each :
  forall (l : list Parties.EscapeRoom),
    (forall k, In k (List.map Parties.id (Parties.uniqueParties l)) <->
               In k (List.map Parties.id l)) /\
    (forall x, In x (Parties.uniqueParties l) -> In x l) /\
    (forall l1 x l2,
        l = l1 ++ x :: l2 ->
        ~ In (Parties.id x) (List.map Parties.id l2) ->
        In x (Parties.uniqueParties l)).
Proof.
  intros l. split; [|split].
  - intros k. rewrite uniqueParties_ids, fold_keys. cbn. tauto.
  - intros x Hin. unfold Parties.uniqueParties in Hin.
    apply in_map_iff in Hin. destruct Hin as [kv [E Hin]]. subst x.
    destruct (fold_values _ _ _ Hin) as [H|[]]. exact H.
  - intros l1 x l2 -> Hlast. unfold Parties.uniqueParties.
    apply in_map_iff. exists (Parties.id x, x). split; [reflexivity|].
    rewrite fold_left_app. cbn [fold_left].
    apply fold_keeps; [exact Hlast|apply Map_set_sets].
Qed.

Lemma uniqueParties_shows_last_of_each_witness :
  In (room "1" "second")
     (Parties.uniqueParties [room "1" "first"; room "2" "other"; room "1" "second"]).
Proof.
  destruct (uniqueParties_shows_last_of_each
              [room "1" "first"; room "2" "other"; room "1" "second"])
    as [_ [_ H]].
  apply (H [room "1" "first"; room "2" "other"] (room "1" "second") []).
  - reflexivity.
  - intros [].
Defined.

(** X11. A response whose parties have distinct identifiers is shown as it
    is, in its order; and [uniqueParties] applied to what it returned
    changes nothing. *)
Theorem uniqueParties_keeps_distinct :
  forall (l : list Parties.EscapeRoom),
    (NoDup (List.map Parties.id l) -> Parties.uniqueParties l = l) /\
    Parties.uniqueParties (Parties.uniqueParties l) = Parties.uniqueParties l.
Proof.
  assert (H : forall l, NoDup (List.map Parties.id l) -> Parties.uniqueParties l = l).
  { intros l Hnd. unfold Parties.uniqueParties.
    rewrite fold_fresh; [|exact Hnd|intros k _ []].
    cbn. rewrite map_map. cbn. apply map_id. }
  intros l. split; [apply H|]. apply H. apply uniqueParties_NoDup.
Qed.

Lemma uniqueParties_keeps_distinct_witness :
  Parties.uniqueParties [room "1" "a"; room "2" "b"] = [room "1" "a"; room "2" "b"].
Proof.
  destruct (uniqueParties_keeps_distinct [room "1" "a"; room "2" "b"]) as [H _].
  apply H.
  cbn. repeat constructor; cbn; intros G; repeat destruct G as [G|G];
    try discriminate; try contradiction.
Defined.

Section PartiesPage.
Variable ts : Z -> string.
Variable fmt : string -> string.

Lemma loadParties_shows :
  forall o w,
    let ps :=
      Parties.parties (Parties.st (fst (Parties.loadParties_resume ts fmt o w))) in
    ps = [] \/ exists l, ps = Parties.uniqueParties l.
Proof.
  intros o [[ps p l h k r] sn]. cbn zeta.
  destruct o as [body|e]; [|left; reflexivity].
  destruct body as [| |b|q|x|items|fs]; try (left; reflexivity).
  unfold Parties.loadParties_resume, Parties.on_response, Parties.store_parties,
    Parties.unexpected.
  cbv [finally try_catch bind lift get has].
  repeat first
    [ left; reflexivity
    | right; eexists; reflexivity
    | progress cbn [truthy isArray elements negb]
    | match goal with
      | |- context [if ?b then _ else _] => is_var b; destruct b
      | |- context [Qeq_bool ?q 0] => is_var q; destruct (Qeq_bool q 0)
      | |- context [String.eqb ?x ""] => is_var x; destruct (String.eqb x "")
      | |- context [own ?k ?fs] => is_var fs; destruct (own k fs)
      | |- context [isArray ?c] => is_var c; destruct c
      | |- context [truthy ?c] => is_var c; destruct c
      | |- context [Nat.eqb (List.length ?l) 0] => is_var l; destruct l
      end ].
Qed.

(** X12. Whatever the search request settles to, the parties shown
    afterwards have pairwise distinct identifiers; in particular at most
    one party without an identifier is shown. *)
Theorem loadParties_shows_distinct_ids :
  forall (o : outcome Parties.PartyMainResponse) (w : Parties.World),
    let ps :=
      Parties.parties (Parties.st (fst (Parties.loadParties_resume ts fmt o w))) in
    NoDup (List.map Parties.id ps) /\
    (forall x y, In x ps -> In y ps -> Parties.id x = Parties.id y -> x = y).
Proof.
  intros o w ps.
  assert (Hnd : NoDup (List.map Parties.id ps)).
  { destruct (loadParties_shows o w) as [E|[l E]]; fold ps in E; rewrite E.
    - constructor.
    - apply uniqueParties_NoDup. }
  split; [exact Hnd|].
  clear - Hnd. induction ps as [|a ps IH]; cbn in *; [intros x y []|].
  inversion Hnd as [|k ks Hnotin Hnd']; subst.
  intros x y [Hx|Hx] [Hy|Hy] E.
  - congruence.
  - subst a. exfalso. apply Hnotin. rewrite E. apply in_map. exact Hy.
  - subst a. exfalso. apply Hnotin. rewrite <- E. apply in_map. exact Hx.
  - apply IH; assumption.
Qed.

(** X13. A converted party always has a title: a missing or empty one
    becomes the placeholder.  It has an identifier exactly when the party
    of the API has one, and a date text only when that party has a
    non-empty schedule. *)
Theorem convertToEscapeRoom_fills_gaps :
  forall (p : Parties.PartyMainResponse),
    let room := Parties.convertToEscapeRoom ts fmt p in
    Parties.title room <> "" /\
    (Parties.api_title p = None -> Parties.title room = "제목 없음") /\
    (Parties.id room = None <-> Parties.api_id p = None) /\
    (Parties.scheduledAt p = None \/ Parties.scheduledAt p = Some "" ->
     Parties.date room = "").
Proof.
  intros p. cbn zeta. unfold Parties.convertToEscapeRoom.
  cbn [Parties.title Parties.id Parties.date].
  split; [|split; [|split]].
  - unfold Parties.string_or. destruct (Parties.api_title p) as [s|].
    + destruct (String.eqb_spec s ""); [discriminate|assumption].
    + discriminate.
  - intros H. rewrite H. reflexivity.
  - destruct (Parties.api_id p); cbn; split; intros H; congruence.
  - intros [H|H]; rewrite H; reflexivity.
Qed.

End PartiesPage.

Lemma convertToEscapeRoom_fills_gaps_witness :
  Parties.title
    (Parties.convertToEscapeRoom (fun _ => "0") (fun t => t)
       {| Parties.themeId := None; Parties.themeName := None;
          Parties.themeThumbnailUrl := None; Parties.storeId := None;
          Parties.storeName := None; Parties.api_id := Some 4;
          Parties.api_title := None; Parties.scheduledAt := None;
          Parties.acceptedParticipantCount := None;
          Parties.totalParticipants := None |}) = "제목 없음".
Proof.
  apply (convertToEscapeRoom_fills_gaps (fun _ => "0") (fun t => t)
           {| Parties.themeId := None; Parties.themeName := None;
              Parties.themeThumbnailUrl := None; Parties.storeId := None;
              Parties.storeName := None; Parties.api_id := Some 4;
              Parties.api_title := None; Parties.scheduledAt := None;
              Parties.acceptedParticipantCount := None;
              Parties.totalParticipants := None |}).
  reflexivity.
Defined.

(** X14. A search or a region change on the party page empties the list
    and puts the page back to 1 without touching the exhaustion flag, and
    calls [loadParties] at once: unless the render was loading, the request
    leaves inside the handler and carries the keyword and region of that
    render, not the value just entered.  A filter change of another type
    does nothing. *)
Theorem parties_reload_sends_render_query :
  forall (snap : Parties.State) (v t : string) (w : Parties.World),
    let old := {| Parties.keyword := Parties.searchKeyword snap;
                  Parties.region := Parties.filterRegion snap |} in
    let rs := Parties.handleSearch snap v w in
    let rf := Parties.handleFilterChange snap "region" v w in
    (Parties.searchKeyword (Parties.st (fst rs)) = v /\
     Parties.filterRegion (Parties.st (fst rf)) = v /\
     Parties.parties (Parties.st (fst rs)) = [] /\
     Parties.parties (Parties.st (fst rf)) = [] /\
     Parties.page (Parties.st (fst rs)) = 1 /\
     Parties.page (Parties.st (fst rf)) = 1 /\
     Parties.hasMore (Parties.st (fst rs)) = Parties.hasMore (Parties.st w) /\
     Parties.hasMore (Parties.st (fst rf)) = Parties.hasMore (Parties.st w)) /\
    (Parties.loading snap = false ->
     Parties.sent (fst rs) = Parties.sent w ++ [old] /\
     Parties.sent (fst rf) = Parties.sent w ++ [old] /\
     Parties.loading (Parties.st (fst rs)) = true) /\
    (Parties.loading snap = true ->
     Parties.sent (fst rs) = Parties.sent w /\
     Parties.sent (fst rf) = Parties.sent w) /\
    (t <> "region" ->
     Parties.handleFilterChange snap t v w = (w, Normal None)).
Proof.
  intros snap v t [[ps p l h k r] sn]. cbn zeta.
  unfold Parties.handleSearch, Parties.handleFilterChange, Parties.loadParties_begin.
  split; [|split; [|split]].
  - destruct (Parties.loading snap); cbn; repeat split.
  - intros H. rewrite H. cbn. repeat split.
  - intros H. rewrite H. cbn. repeat split.
  - intros H. destruct (String.eqb_spec t "region"); [contradiction|reflexivity].
Qed.

Lemma parties_reload_sends_render_query_witness :
  Parties.sent (fst (Parties.handleSearch (Parties.st two_parties) "new" two_parties)) =
    [{| Parties.keyword := "old"; Parties.region := "" |}] /\
  Parties.handleFilterChange (Parties.st two_parties) "genre" "x" two_parties =
    (two_parties, Normal None).
Proof.
  destruct (parties_reload_sends_render_query (Parties.st two_parties) "new" "genre"
              two_parties) as [_ [Hs [_ Ht]]].
  split.
  - apply Hs. reflexivity.
  - destruct (parties_reload_sends_render_query (Parties.st two_parties) "x" "genre"
                two_parties) as [_ [_ [_ Hx]]].
    apply Hx. discriminate.
Defined.

(** X15. The scroll sentinel of the party page never sends a request and
    never changes the list: seen from an idle render it only marks the list
    exhausted, and otherwise it does nothing. *)
Theorem parties_sentinel_only_exhausts :
  forall (inView : bool) (snap : Parties.State) (w : Parties.World),
    let r := Parties.effect_inView inView snap w in
    snd r = Normal tt /\
    Parties.sent (fst r) = Parties.sent w /\
    Parties.parties (Parties.st (fst r)) = Parties.parties (Parties.st w) /\
    Parties.loading (Parties.st (fst r)) = Parties.loading (Parties.st w) /\
    (inView = true -> Parties.load_state snap = Parties.Idle ->
     Parties.hasMore (Parties.st (fst r)) = false) /\
    (inView = false \/ Parties.load_state snap <> Parties.Idle -> fst r = w).
Proof.
  intros inView snap [[ps p l h k r] sn]. cbn zeta.
  unfold Parties.effect_inView, Parties.load_state.
  destruct inView, (Parties.loading snap), (Parties.hasMore snap); cbn;
    repeat split; try congruence; intros [H|H]; congruence.
Qed.

Lemma parties_sentinel_only_exhausts_witness :
  Parties.hasMore
    (Parties.st (fst (Parties.effect_inView true (Parties.st two_parties) two_parties))) =
    false /\
  fst (Parties.effect_inView false (Parties.st two_parties) two_parties) = two_parties.
Proof.
  destruct (parties_sentinel_only_exhausts true (Parties.st two_parties) two_parties)
    as [_ [_ [_ [_ [H _]]]]].
  destruct (parties_sentinel_only_exhausts false (Parties.st two_parties) two_parties)
    as [_ [_ [_ [_ [_ G]]]]].
  split; [apply H; reflexivity|apply G; left; reflexivity].
Defined.

(** *** The party form: picking a theme and sending *)


Section PartySubmission.
Variable parseInt10 : string -> number.
Variable Date_time : string -> number.
Variable toISOString : number -> string.
Variable text_of : value unit -> string.
Variable TypeError_message : string.


Lemma valid_form_request :
  forall (f : CreateParty.PartyFormData) (now : Q),
    ~ CreateParty.invalid parseInt10 Date_time f now ->
    CreateParty.validate parseInt10 Date_time toISOString f (Fin now) =
      Normal (CreateParty.request_of parseInt10 Date_time toISOString f).
Proof.
  intros f now H.
  destruct (validate_cases parseInt10 Date_time toISOString f now)
    as [[Hinv _]|[_ Hv]]; [contradiction|exact Hv].
Qed.

(** X17. When the server accepts a valid form, the handler navigates
    exactly once: to the page of the new party when the response carries a
    truthy [data.id], and to the list of parties when it carries no [data].
    The error stays cleared and the form is no longer submitting. *)
Theorem handleSubmit_success_navigates :
  forall (snap : CreateParty.State) (now : Q) (w : CreateParty.World)
         (fs dfs : list (string * value unit)) (v : value unit),
    ~ CreateParty.invalid parseInt10 Date_time (CreateParty.formData snap) now ->
    let run body :=
      fst (CreateParty.handleSubmit parseInt10 Date_time toISOString text_of
             TypeError_message snap (Fin now) (Resolved body) w) in
    (own "data" fs = Some (VObj dfs) -> own "id" dfs = Some v -> truthy v = true ->
     CreateParty.pushed (run (VObj fs)) =
       CreateParty.pushed w ++ [("/parties/" ++ text_of v)%string] /\
     CreateParty.error (CreateParty.st (run (VObj fs))) = None /\
     CreateParty.isSubmitting (CreateParty.st (run (VObj fs))) = false) /\
    (own "data" fs = None ->
     CreateParty.pushed (run (VObj fs)) = CreateParty.pushed w ++ ["/parties"] /\
     CreateParty.error (CreateParty.st (run (VObj fs))) = None /\
     CreateParty.isSubmitting (CreateParty.st (run (VObj fs))) = false).
Proof.
  intros snap now [[f m1 m2 sub err] sn pu] fs dfs v Hvalid. cbv beta zeta.
  unfold CreateParty.handleSubmit.
  cbv [bind finally try_catch lift]. rewrite (valid_form_request _ _ Hvalid).
  split.
  - intros Hd Hi Ht. cbn. rewrite Hd. cbn. rewrite Hi, Ht. cbn. repeat split.
  - intros Hd. cbn. rewrite Hd. cbn. repeat split.
Qed.


(** X19. A participants field that does not parse as a number is not
    refused: with a positive theme and a parsed, future date the request is
    sent, carrying what the fields parsed to. *)
Theorem handleSubmit_lets_unparsed_participants_through :
  forall (snap : CreateParty.State) (now : Q) (net : outcome unit)
         (w : CreateParty.World),
    let f := CreateParty.formData snap in
    let at_ := Date_time (CreateParty.date f ++ "T" ++ CreateParty.time f) in
    lt (Fin 0) (CreateParty.themeId f) = true ->
    parseInt10 (CreateParty.participantsNeeded f) = NaN \/
    parseInt10 (CreateParty.totalParticipants f) = NaN ->
    CreateParty.isNaN at_ = false ->
    lt (Fin now) at_ = true ->
    CreateParty.sent
      (fst (CreateParty.handleSubmit parseInt10 Date_time toISOString text_of
              TypeError_message snap (Fin now) net w)) =
    CreateParty.sent w ++
      [CreateParty.request_of parseInt10 Date_time toISOString f].
Proof.
  intros snap now net w f at_ Ht Hp Hn Hf.
  assert (Hvalid : ~ CreateParty.invalid parseInt10 Date_time f now).
  { unfold CreateParty.invalid. fold at_.
    intros [H|[H|[H|H]]]; try congruence.
    destruct Hp as [Hp|Hp]; rewrite Hp in H.
    - destruct (parseInt10 (CreateParty.totalParticipants f)); discriminate.
    - discriminate. }
  destruct w as [[f0 m1 m2 sub err] sn pu].
  unfold CreateParty.handleSubmit.
  cbv [bind finally try_catch lift]. fold f.
  rewrite (valid_form_request _ _ Hvalid).
  destruct net as [body|e].
  - destruct body as [| |b|q|x|l|fs]; cbn; try reflexivity.
    destruct (own "data" fs) as [data|]; [|reflexivity].
    destruct data as [| |b|q|x|l|dfs]; cbn; try reflexivity.
    destruct (own "id" dfs) as [v|]; [|reflexivity].
    destruct (truthy v); reflexivity.
  - destruct e as [|m [[s|]|]|m]; reflexivity.
Qed.
End PartySubmission.

Lemma sample_form_valid :
  ~ CreateParty.invalid sample_parseInt10 sample_Date_time
      (CreateParty.formData (party_form "2030-01-01")) 10.
Proof. intros [H|[H|[H|H]]]; discriminate. Qed.


Lemma handleSubmit_success_navigates_witness :
  CreateParty.pushed
    (fst (CreateParty.handleSubmit sample_parseInt10 sample_Date_time
            (fun _ => "iso") (fun _ => "5") "type error"
            (party_form "2030-01-01") (Fin 10)
            (Resolved (VObj [("data", VObj [("id", VNum (inject_Z 5))])]))
            (form_world (party_form "2030-01-01")))) = ["/parties/5"].
Proof.
  destruct (handleSubmit_success_navigates sample_parseInt10 sample_Date_time
              (fun _ => "iso") (fun _ => "5") "type error"
              (party_form "2030-01-01") 10 (form_world (party_form "2030-01-01"))
              [("data", VObj [("id", VNum (inject_Z 5))])]
              [("id", VNum (inject_Z 5))] (VNum (inject_Z 5))
              sample_form_valid) as [H _].
  destruct (H eq_refl eq_refl eq_refl) as [Hp _]. exact Hp.
Defined.


Lemma handleSubmit_lets_unparsed_participants_through_witness :
  List.map CreateParty.req_participantsNeeded
    (CreateParty.sent
       (fst (CreateParty.handleSubmit sample_parseInt10 sample_Date_time
               (fun _ => "iso") (fun _ => "5") "type error"
               blank_participants_form (Fin 10) (Rejected TypeError)
               (form_world blank_participants_form)))) = [NaN].
Proof.
  rewrite (handleSubmit_lets_unparsed_participants_through
             sample_parseInt10 sample_Date_time (fun _ => "iso") (fun _ => "5")
             "type error" blank_participants_form 10 (Rejected TypeError)
             (form_world blank_participants_form)).
  - reflexivity.
  - reflexivity.
  - left. reflexivity.
  - reflexivity.
  - reflexivity.
Defined.

(** *** The filter dialog *)

Lemma includes_In :
  forall x l, ThemeFilterModal.includes x l = true <-> In x l.
Proof.
  intros x l. unfold ThemeFilterModal.includes. rewrite existsb_exists. split.
  - intros [y [Hin E]]. apply String.eqb_eq in E. now subst.
  - intros H. exists x. split; [exact H|apply String.eqb_refl].
Qed.

Lemma includes_filter :
  forall x y l,
    ThemeFilterModal.includes y (filter (fun r => negb (String.eqb r x)) l) =
    negb (String.eqb y x) && ThemeFilterModal.includes y l.
Proof.
  intros x y. unfold ThemeFilterModal.includes.
  induction l as [|a l IH]; cbn; [now rewrite andb_false_r|].
  destruct (String.eqb_spec a x) as [E|E]; cbn.
  - rewrite IH. subst a. destruct (String.eqb_spec y x); cbn; reflexivity.
  - rewrite IH. destruct (String.eqb_spec y a) as [E'|E']; cbn.
    + subst a. destruct (String.eqb_spec y x); [contradiction|reflexivity].
    + reflexivity.
Qed.

Lemma includes_toggle :
  forall x y l,
    ThemeFilterModal.includes y (ThemeFilterModal.toggle x l) =
    if String.eqb y x then negb (ThemeFilterModal.includes x l)
    else ThemeFilterModal.includes y l.
Proof.
  intros x y l. unfold ThemeFilterModal.toggle.
  destruct (ThemeFilterModal.includes x l) eqn:Hx.
  - rewrite includes_filter. destruct (String.eqb_spec y x); reflexivity.
  - unfold ThemeFilterModal.includes in *. rewrite existsb_app. cbn.
    rewrite orb_false_r.
    destruct (String.eqb_spec y x) as [E|E]; [subst y; rewrite Hx|];
      cbn; [reflexivity|apply orb_false_r].
Qed.

(** X20. A click on a region or genre flips that one checkbox and no
    other; after any run of clicks from an empty selection, an entry is
    selected exactly when it was clicked an odd number of times. *)
Theorem toggle_flips_one_checkbox :
  forall (x y : string) (xs l : list string),
    ThemeFilterModal.includes x (ThemeFilterModal.toggle x l) =
      negb (ThemeFilterModal.includes x l) /\
    (y <> x ->
     ThemeFilterModal.includes y (ThemeFilterModal.toggle x l) =
       ThemeFilterModal.includes y l) /\
    ThemeFilterModal.includes y (ThemeFilterModal.toggles xs []) =
      Nat.odd (count_occ string_dec xs y).
Proof.
  intros x y xs l. split; [|split].
  - rewrite includes_toggle, String.eqb_refl. reflexivity.
  - intros H. rewrite includes_toggle.
    destruct (String.eqb_spec y x); [contradiction|reflexivity].
  - assert (G : forall zs m,
               ThemeFilterModal.includes y (ThemeFilterModal.toggles zs m) =
               xorb (ThemeFilterModal.includes y m)
                    (Nat.odd (count_occ string_dec zs y))).
    { induction zs as [|z zs IH]; intros m.
      - cbn. now rewrite xorb_false_r.
      - unfold ThemeFilterModal.toggles in *. cbn [fold_left count_occ].
        rewrite IH, includes_toggle.
        destruct (string_dec z y) as [E|E].
        + subst z. rewrite String.eqb_refl, Nat.odd_succ, <- Nat.negb_odd.
          destruct (ThemeFilterModal.includes y m),
                   (Nat.odd (count_occ string_dec zs y)); reflexivity.
        + destruct (String.eqb_spec y z); [congruence|reflexivity]. }
    rewrite G. reflexivity.
Qed.

Lemma toggle_flips_one_checkbox_witness :
  ThemeFilterModal.includes "b"
    (ThemeFilterModal.toggle "a" ["b"; "c"]) =
  ThemeFilterModal.includes "b" ["b"; "c"].
Proof.
  apply (toggle_flips_one_checkbox "a" "b" [] ["b"; "c"]). discriminate.
Defined.

Lemma toggle_NoDup :
  forall x l, NoDup l -> NoDup (ThemeFilterModal.toggle x l).
Proof.
  intros x l H. unfold ThemeFilterModal.toggle.
  destruct (ThemeFilterModal.includes x l) eqn:Hx.
  - apply NoDup_filter. exact H.
  - assert (Hn : ~ In x l).
    { intros Hin. apply includes_In in Hin. congruence. }
    clear Hx. induction l as [|a l IH]; cbn.
    + constructor; [intros []|constructor].
    + inversion H as [|b bs Hnotin Hnd]; subst.
      constructor.
      * intros Hin. apply in_app_or in Hin. destruct Hin as [Hin|[Hin|[]]].
        -- contradiction.
        -- apply Hn. left. now symmetry.
      * apply IH; [exact Hnd|]. intros Hin. apply Hn. right. exact Hin.
Qed.

Lemma toggle_In :
  forall x y l, In y (ThemeFilterModal.toggle x l) -> y = x \/ In y l.
Proof.
  intros x y l H. apply includes_In in H. rewrite includes_toggle in H.
  destruct (String.eqb_spec y x); [left; assumption|].
  right. apply includes_In. exact H.
Qed.

(** X21. Whatever is clicked, in whatever order, the selection never holds
    an entry twice and holds only entries that were clicked. *)
Theorem selection_has_no_duplicates :
  forall (xs : list string),
    NoDup (ThemeFilterModal.toggles xs []) /\
    (forall y, In y (ThemeFilterModal.toggles xs []) -> In y xs).
Proof.
  assert (G : forall xs m,
             NoDup m ->
             NoDup (ThemeFilterModal.toggles xs m) /\
             (forall y, In y (ThemeFilterModal.toggles xs m) -> In y m \/ In y xs)).
  { induction xs as [|x xs IH]; intros m Hm.
    - cbn. split; [exact Hm|intros y H; left; exact H].
    - unfold ThemeFilterModal.toggles in *. cbn [fold_left].
      destruct (IH (ThemeFilterModal.toggle x m) (toggle_NoDup x m Hm)) as [H1 H2].
      split; [exact H1|]. intros y Hy.
      destruct (H2 y Hy) as [H|H].
      + destruct (toggle_In _ _ _ H) as [E|E];
          [right; left; now symmetry|left; exact E].
      + right. right. exact H. }
  intros xs. destruct (G xs [] (NoDup_nil _)) as [H1 H2].
  split; [exact H1|]. intros y Hy. destruct (H2 y Hy) as [[]|H]. exact H.
Qed.

(** X22. Clicking twice an entry that was not selected restores the
    selection as it was; clicking twice one that was selected keeps it
    selected but moves it to the end. *)
Theorem toggle_twice :
  forall (x : string) (l : list string),
    (~ In x l ->
     ThemeFilterModal.toggle x (ThemeFilterModal.toggle x l) = l) /\
    (In x l ->
     ThemeFilterModal.toggle x (ThemeFilterModal.toggle x l) =
       filter (fun r => negb (String.eqb r x)) l ++ [x]).
Proof.
  intros x l. split; intros H.
  - assert (Hx : ThemeFilterModal.includes x l = false).
    { destruct (ThemeFilterModal.includes x l) eqn:E; [|reflexivity].
      apply includes_In in E. contradiction. }
    unfold ThemeFilterModal.toggle at 2. rewrite Hx.
    unfold ThemeFilterModal.toggle.
    replace (ThemeFilterModal.includes x (l ++ [x])) with true.
    + rewrite filter_app. cbn. rewrite String.eqb_refl. cbn. rewrite app_nil_r.
      clear Hx. induction l as [|a l IH]; cbn; [reflexivity|].
      destruct (String.eqb_spec a x) as [E|E]; cbn.
      * exfalso. apply H. left. exact E.
      * f_equal. apply IH. intros Hin. apply H. right. exact Hin.
    + symmetry. apply includes_In. apply in_or_app. right. left. reflexivity.
  - assert (Hx : ThemeFilterModal.includes x l = true) by (now apply includes_In).
    unfold ThemeFilterModal.toggle at 2. rewrite Hx.
    unfold ThemeFilterModal.toggle.
    rewrite includes_filter, String.eqb_refl. reflexivity.
Qed.

Lemma toggle_twice_witness :
  ThemeFilterModal.toggle "a" (ThemeFilterModal.toggle "a" ["b"; "c"]) = ["b"; "c"] /\
  ThemeFilterModal.toggle "b" (ThemeFilterModal.toggle "b" ["b"; "c"]) = ["c"; "b"].
Proof.
  split.
  - apply (toggle_twice "a" ["b"; "c"]).
    intros [H|[H|[]]]; discriminate.
  - destruct (toggle_twice "b" ["b"; "c"]) as [_ H].
    rewrite H; [reflexivity|left; reflexivity].
Defined.

(** X23. The summary line of the dialog is empty exactly when nothing is
    selected: no region, no genre and no number of participants. *)
Theorem summary_empty_iff_nothing_selected :
  forall (snap : ThemeFilterModal.State),
    ThemeFilterModal.getSelectedFiltersText snap = "" <->
    ThemeFilterModal.selectedRegions snap = [] /\
    ThemeFilterModal.selectedGenres snap = [] /\
    ThemeFilterModal.selectedParticipant snap = "".
Proof.
  intros [rs gs p a]. unfold ThemeFilterModal.getSelectedFiltersText.
  cbn [ThemeFilterModal.selectedRegions ThemeFilterModal.selectedGenres
       ThemeFilterModal.selectedParticipant].
  destruct (String.eqb_spec p "") as [Ep|Ep].
  - subst p. destruct rs as [|r rs], gs as [|g gs]; cbn;
      split; try (intros H; discriminate H);
      try (intros [H1 [H2 H3]]; discriminate); try reflexivity.
    intros _. repeat split.
  - destruct p as [|c p]; [contradiction|].
    destruct rs as [|r rs], gs as [|g gs]; cbn;
      split; try (intros H; discriminate H);
      intros [H1 [H2 H3]]; discriminate.
Qed.

(** *** The two effects of the diary list *)



(** X25. After a query change made from an idle render, the load of the
    emptied list (made from the new render) and the load the handler
    scheduled (belonging to the old render) both pass their guards: two
    requests leave with none settled, the first for page 0 of the new
    query, the second for the page and query of the old render. *)
Theorem query_change_can_send_two_requests :
  forall (c : DiaryList.query_change) (w : DiaryList.World),
    DiaryList.load_state (DiaryList.st w) = DiaryList.Idle ->
    DiaryList.timers w = [] ->
    let w1 := fst (DiaryList.change_query (DiaryList.st w) c w) in
    let w2 := fst (DiaryList.effect_empty_list (DiaryList.st w1) w1) in
    let w3 := fst (DiaryList.run_timer w2) in
    DiaryList.sent w3 =
      DiaryList.sent w ++
      [DiaryList.requestData (DiaryList.st w1); DiaryList.requestData (DiaryList.st w)] /\
    DiaryList.req_page (DiaryList.requestData (DiaryList.st w1)) = 0 /\
    DiaryList.keyword (DiaryList.requestData (DiaryList.st w1)) =
      DiaryList.non_empty (DiaryList.new_keyword c (DiaryList.st w)) /\
    DiaryList.req_page (DiaryList.requestData (DiaryList.st w)) =
      DiaryList.page (DiaryList.st w).
Proof.
  intros c [[k o f p l h d] sn tm] Hidle Htm.
  unfold DiaryList.load_state in Hidle. cbn in Hidle, Htm. subst tm.
  destruct l; [discriminate|]. destruct h; [|discriminate].
  destruct c as [k'|f'|[| |]|]; cbn; rewrite <- app_assoc; repeat split.
Qed.

Lemma query_change_can_send_two_requests_witness :
  let w :=
    DiaryList.appended [sample 1; sample 2] false
      (DiaryList.started DiaryList.initial DiaryList.mounted) in
  let w1 := fst (DiaryList.change_query (DiaryList.st w) (DiaryList.Search "mystery") w) in
  let w2 := fst (DiaryList.effect_empty_list (DiaryList.st w1) w1) in
  List.map DiaryList.req_page (DiaryList.sent (fst (DiaryList.run_timer w2))) = [0; 0; 1].
Proof.
  cbv zeta.
  destruct (query_change_can_send_two_requests (DiaryList.Search "mystery")
              (DiaryList.appended [sample 1; sample 2] false
                 (DiaryList.started DiaryList.initial DiaryList.mounted))
              eq_refl eq_refl) as [H _].
  rewrite H. reflexivity.
Defined.
